(** * Agentarium: schema catalog and guarded query gateway

    A shallow embedding of [src/postgres_db.py] (the pydantic data model and
    [PostgreSQLManager]) and of the database tools of [src/mcp.py], together
    with the properties of the specification that concern them.

    Conventions of the embedding.
    - Python [str] is [string]; the model covers ASCII text: a byte above 127
      is kept as it is by [upper] and is never whitespace.
    - Python [int] is [Z].
    - The database engine (SQLAlchemy inspector and connection) is not part of
      the repository: it is a record of oracles, [Engine], and every request
      sent to it is appended to a log that the computation threads along.
    - Python exceptions are values of [exn]; a computation is a function from
      the log to an outcome ([Ok] or [Raise]) and the extended log.
    - [print] calls only write to standard output and are left out. *)

From Stdlib Require Import ZArith List Ascii String Lia.
From stdpp Require Import base option list strings pretty gmap sorting.

Local Open Scope string_scope.
Local Open Scope Z_scope.

(** ** Python built-ins used by the code *)

Module Py.

(** [c.isspace()] on the ASCII range: tab, line feed, vertical tab, form feed,
    carriage return, the four separators 0x1c-0x1f, and space. *)
Definition isspace (c : ascii) : bool :=
  let n := N_of_ascii c in
  ((9 <=? n) && (n <=? 13) || (28 <=? n) && (n <=? 32))%N.

Fixpoint lstrip (s : string) : string :=
  match s with
  | String c s' => if isspace c then lstrip s' else s
  | EmptyString => EmptyString
  end.

Fixpoint rstrip (s : string) : string :=
  match s with
  | String c s' =>
      match rstrip s' with
      | EmptyString => if isspace c then EmptyString else String c EmptyString
      | r => String c r
      end
  | EmptyString => EmptyString
  end.

(** [s.strip()] *)
Definition strip (s : string) : string := rstrip (lstrip s).

Definition upper_char (c : ascii) : ascii :=
  let n := N_of_ascii c in
  if ((97 <=? n) && (n <=? 122))%N then ascii_of_N (n - 32) else c.

(** [s.upper()] *)
Fixpoint upper (s : string) : string :=
  match s with
  | String c s' => String (upper_char c) (upper s')
  | EmptyString => EmptyString
  end.

Definition lower_char (c : ascii) : ascii :=
  let n := N_of_ascii c in
  if ((65 <=? n) && (n <=? 90))%N then ascii_of_N (n + 32) else c.

(** [s.lower()] *)
Fixpoint lower (s : string) : string :=
  match s with
  | String c s' => String (lower_char c) (lower s')
  | EmptyString => EmptyString
  end.

(** [s.startswith(p)] *)
Definition startswith (s p : string) : bool := String.prefix p s.

(** [sub in s] *)
Fixpoint contains (sub s : string) : bool :=
  String.prefix sub s ||
  match s with
  | String _ s' => contains sub s'
  | EmptyString => false
  end.

(** [not s] for a string: the empty string is falsy. *)
Definition falsy (s : string) : bool := bool_decide (s = "").

(** [len(s)] *)
Definition len (s : string) : Z := Z.of_nat (String.length s).

(** [str(n)] and [f"{n}"] for an [int]. *)
Definition str_int (n : Z) : string := pretty n.

(** [c * n] for a one-character string [c]. *)
Definition repeat_char (c : ascii) (n : Z) : string :=
  Nat.iter (Z.to_nat n) (String c) "".

(** [sep.join(l)] *)
Fixpoint join (sep : string) (l : list string) : string :=
  match l with
  | [] => ""
  | [x] => x
  | x :: l' => x +:+ sep +:+ join sep l'
  end.

Definition nl : string := String (ascii_of_nat 10) "".

(** Values found in result rows (the [Any] of [Dict[str, Any]]). *)
Inductive value : Type :=
| VNone
| VInt (n : Z)
| VStr (s : string).

(** [str(v)] *)
Definition str_value (v : value) : string :=
  match v with
  | VNone => "None"
  | VInt n => str_int n
  | VStr s => s
  end.

(** [f"{x}"] for an [Optional[str]]. *)
Definition str_opt (o : option string) : string :=
  match o with
  | Some s => s
  | None => "None"
  end.

(** A [dict] with string keys: insertion ordered, one entry per key;
    assigning to a present key replaces the value in place. *)
Definition dict (V : Type) : Type := list (string * V).

Fixpoint dict_set {V} (k : string) (v : V) (d : dict V) : dict V :=
  match d with
  | [] => [(k, v)]
  | (k', v') :: d' =>
      if String.eqb k k' then (k, v) :: d' else (k', v') :: dict_set k v d'
  end.

Fixpoint dict_get {V} (k : string) (d : dict V) : option V :=
  match d with
  | [] => None
  | (k', v') :: d' => if String.eqb k k' then Some v' else dict_get k d'
  end.

Definition dict_keys {V} (d : dict V) : list string := map fst d.

(** [dict(zip(keys, vals))] *)
Definition dict_zip {V} (keys : list string) (vals : list V) : dict V :=
  fold_left (fun d kv => dict_set (fst kv) (snd kv) d) (combine keys vals) [].

(** A [float] that the code only tests for truth and prints with a format:
    it is represented by these two observations. *)
Record float : Type := {
  float_truthy : bool;
  float_3f : string          (* f"{x:.3f}" *)
}.

(** [s.split()]: the words between runs of whitespace. *)
Fixpoint split_go (cur : option string) (s : string) : list string :=
  match s with
  | EmptyString =>
      match cur with
      | Some w => [String.rev w]
      | None => []
      end
  | String c s' =>
      if isspace c
      then match cur with
           | Some w => String.rev w :: split_go None s'
           | None => split_go None s'
           end
      else split_go (Some (String c (match cur with Some w => w | None => "" end))) s'
  end.

Definition split (s : string) : list string := split_go None s.

(** The two hexadecimal digits of a character code. *)
Definition hex_digit (n : N) : ascii :=
  if (n <? 10)%N then ascii_of_N (48 + n) else ascii_of_N (87 + n).

(** [repr(s)] for a [str], on the ASCII range: double quotes when the text
    has a single quote and no double quote, single quotes otherwise; the
    backslash and the chosen quote are escaped, tab, line feed and carriage
    return are written [\t], [\n], [\r], the other control characters
    [\xhh]. *)
Definition repr_char (quote c : ascii) : string :=
  let n := N_of_ascii c in
  if Ascii.eqb c quote || Ascii.eqb c "\"%char then String "\"%char (String c "")
  else if (n =? 9)%N then "\t"
  else if (n =? 10)%N then "\n"
  else if (n =? 13)%N then "\r"
  else if (n <? 32)%N || (n =? 127)%N
  then String "\"%char (String "x"%char
         (String (hex_digit (n / 16)) (String (hex_digit (n mod 16)) "")))
  else String c "".

Fixpoint repr_body (quote : ascii) (s : string) : string :=
  match s with
  | EmptyString => EmptyString
  | String c s' => repr_char quote c +:+ repr_body quote s'
  end.

Definition repr_str (s : string) : string :=
  let quote :=
    if contains "'" s && negb (contains (String (ascii_of_nat 34) "") s)
    then ascii_of_nat 34 else "'"%char in
  String quote (repr_body quote s) +:+ String quote "".

(** [repr(l)] and [f"{l}"] for a list of [str]. *)
Definition repr_list (l : list string) : string :=
  "[" +:+ join ", " (map repr_str l) +:+ "]".

End Py.

(** ** Exceptions, the engine and the computation monad *)

(** The exception classes that occur; all of them derive from [Exception]. *)
Inductive exn : Type :=
| SQLAlchemyError (msg : string)        (* sqlalchemy.exc.SQLAlchemyError and subclasses *)
| ValidationError (model field msg : string)  (* pydantic, from a field validator *)
| KeyError (key : string)
| ValueError (msg : string)
| TypeError (msg : string)
| OtherException (msg : string).        (* any other [Exception] of the driver *)

(** [str(e)]. For a pydantic error: the header, the location and the
    validator's message (pydantic appends an echo of the input and a link). *)
Definition str_exn (e : exn) : string :=
  match e with
  | SQLAlchemyError msg => msg
  | ValidationError model field msg =>
      "1 validation error for " +:+ model +:+ Py.nl +:+ field +:+ Py.nl
      +:+ "  Value error, " +:+ msg
  | KeyError key => "'" +:+ key +:+ "'"
  | ValueError msg => msg
  | TypeError msg => msg
  | OtherException msg => msg
  end.

Inductive outcome (A : Type) : Type :=
| Ok (a : A)
| Raise (e : exn).
Arguments Ok {A} a.
Arguments Raise {A} e.

(** What the inspector and the connection return to the code. *)
Record ColumnInfo : Type := {
  ci_name : string;                 (* col_info['name'] *)
  ci_type : string;                 (* str(col_info['type']) *)
  ci_nullable : bool;               (* col_info['nullable'] *)
  ci_default : option string        (* col_info['default'] *)
}.

Record ForeignKeyInfo : Type := {
  fki_constrained_columns : list string;
  fki_referred_table : string;
  fki_referred_columns : list string;
  fki_name : option string          (* fk.get('name') *)
}.

Record IndexInfo : Type := {
  ixi_name : string;
  ixi_column_names : list string;
  ixi_unique : bool
}.

(** The result of [conn.execute(text(query))]: when [result.returns_rows],
    the keys and the rows of [fetchall()]; otherwise [result.rowcount]. *)
Inductive ExecReply : Type :=
| ReturnsRows (keys : list string) (rows : list (list Py.value))
| NoRows (rowcount : Z).

(** The engine. An oracle that answers [Raise] stands for any failure of the
    request (no such table, lost connection, a descriptor that lacks a key or
    that the pydantic model refuses, ...). [get_pk_constraint] answers [None] when the
    primary-key descriptor has no ['constrained_columns'] entry. [elapsed] is
    the wall-clock time measured around a statement. *)
Record Engine : Type := {
  inspect : outcome unit;
  get_table_names : outcome (list string);
  get_columns : string -> outcome (list ColumnInfo);
  get_pk_constraint : string -> outcome (option (list string));
  get_foreign_keys : string -> outcome (list ForeignKeyInfo);
  get_indexes : string -> outcome (list IndexInfo);
  execute : string -> outcome ExecReply;
  elapsed : string -> Py.float
}.

(** A request sent to the engine. *)
Inductive Call : Type :=
| CInspect
| CGetTableNames
| CGetColumns (table_name : string)
| CGetPkConstraint (table_name : string)
| CGetForeignKeys (table_name : string)
| CGetIndexes (table_name : string)
| CExecute (query : string).

(** A computation: from the log of requests so far to an outcome and the
    extended log. *)
Definition M (A : Type) : Type := list Call -> outcome A * list Call.

Definition ret {A} (a : A) : M A := fun log => (Ok a, log).

Definition raise {A} (e : exn) : M A := fun log => (Raise e, log).

Definition bind {A B} (m : M A) (k : A -> M B) : M B :=
  fun log =>
    match m log with
    | (Ok a, log') => k a log'
    | (Raise e, log') => (Raise e, log')
    end.

(** A pure step that may raise. *)
Definition lift {A} (o : outcome A) : M A := fun log => (o, log).

(** A request to the engine: logged, then answered by the oracle. *)
Definition request {A} (c : Call) (answer : outcome A) : M A :=
  fun log => (answer, (log ++ [c])%list).

(** [try: m except Exception as e: handler e] *)
Definition try_except {A} (m : M A) (handler : exn -> M A) : M A :=
  fun log =>
    match m log with
    | (Ok a, log') => (Ok a, log')
    | (Raise e, log') => handler e log'
    end.

Declare Scope py_scope.
Delimit Scope py_scope with py.
Notation "x <- m ;; k" := (bind m (fun x => k))
  (at level 100, m at next level, right associativity) : py_scope.
Notation "m ;;; k" := (bind m (fun _ => k))
  (at level 100, right associativity) : py_scope.

Fixpoint map_outcome {A B} (f : A -> outcome B) (l : list A) : outcome (list B) :=
  match l with
  | [] => Ok []
  | x :: l' =>
      match f x with
      | Ok y =>
          match map_outcome f l' with
          | Ok ys => Ok (y :: ys)
          | Raise e => Raise e
          end
      | Raise e => Raise e
      end
  end.

(** ** [postgres_db.py] *)

Module postgres_db.

Local Open Scope py_scope.

(** *** The pydantic models *)

Record DatabaseColumn : Type := {
  dc_name : string;
  dc_type : string;
  dc_nullable : bool;
  dc_default : option string;
  dc_primary_key : bool;
  dc_foreign_key : option string;
  dc_max_length : option Z;
  dc_precision : option Z;
  dc_scale : option Z
}.

Record ForeignKey : Type := {
  fk_constrained_columns : list string;
  fk_referred_table : string;
  fk_referred_columns : list string;
  fk_name : option string
}.

Record TableIndex : Type := {
  ix_name : string;
  ix_columns : list string;
  ix_unique : bool
}.

Record TableSchema : Type := {
  ts_table_name : string;
  ts_columns : list DatabaseColumn;
  ts_primary_keys : list string;
  ts_foreign_keys : list ForeignKey;
  ts_indexes : list TableIndex;
  ts_row_count : option Z
}.

Record DatabaseSchema : Type := {
  ds_database_name : string;
  ds_tables : gmap string TableSchema;
  ds_total_tables : Z
}.

Record QueryResult : Type := {
  qr_success : bool;
  qr_data : option (list (Py.dict Py.value));
  qr_error : option string;
  qr_rows_affected : option Z;
  qr_execution_time : option Py.float;
  qr_columns : option (list string)
}.

Record SampleData : Type := {
  sd_table_name : string;
  sd_rows : list (Py.dict Py.value);
  sd_total_rows_sampled : Z;
  sd_columns : list string
}.

Record ConnectionConfig : Type := {
  host : string;
  port : Z;
  username : string;
  password : string;
  database : string
}.

(** [DatabaseColumn.validate_name] *)
Definition validate_name (v : string) : outcome string :=
  if Py.falsy v || Py.falsy (Py.strip v)
  then Raise (ValidationError "DatabaseColumn" "name" "Column name cannot be empty")
  else Ok (Py.strip v).

(** [DatabaseColumn(name=, type=, nullable=, default=)]: the validator runs
    on [name]; the other fields take their defaults. *)
Definition new_DatabaseColumn (name type : string) (nullable : bool)
    (default : option string) : outcome DatabaseColumn :=
  match validate_name name with
  | Ok name' =>
      Ok {| dc_name := name'; dc_type := type; dc_nullable := nullable;
            dc_default := default; dc_primary_key := false;
            dc_foreign_key := None; dc_max_length := None;
            dc_precision := None; dc_scale := None |}
  | Raise e => Raise e
  end.

(** [col.primary_key = True] *)
Definition set_primary_key (col : DatabaseColumn) : DatabaseColumn :=
  {| dc_name := dc_name col; dc_type := dc_type col;
     dc_nullable := dc_nullable col; dc_default := dc_default col;
     dc_primary_key := true; dc_foreign_key := dc_foreign_key col;
     dc_max_length := dc_max_length col; dc_precision := dc_precision col;
     dc_scale := dc_scale col |}.

(** [TableSchema.validate_table_name] *)
Definition validate_table_name (v : string) : outcome string :=
  if Py.falsy v || Py.falsy (Py.strip v)
  then Raise (ValidationError "TableSchema" "table_name" "Table name cannot be empty")
  else Ok (Py.strip v).

(** [TableSchema(table_name=, columns=, primary_keys=, foreign_keys=,
    indexes=)]; [row_count] takes its default. *)
Definition new_TableSchema (table_name : string) (columns : list DatabaseColumn)
    (primary_keys : list string) (foreign_keys : list ForeignKey)
    (indexes : list TableIndex) : outcome TableSchema :=
  match validate_table_name table_name with
  | Ok table_name' =>
      Ok {| ts_table_name := table_name'; ts_columns := columns;
            ts_primary_keys := primary_keys; ts_foreign_keys := foreign_keys;
            ts_indexes := indexes; ts_row_count := None |}
  | Raise e => Raise e
  end.

(** [SampleData(table_name=table_name)]: every other field is defaulted. *)
Definition empty_SampleData (table_name : string) : SampleData :=
  {| sd_table_name := table_name; sd_rows := []; sd_total_rows_sampled := 0;
     sd_columns := [] |}.

(** [ConnectionConfig.validate_port] *)
Definition validate_port (v : Z) : outcome Z :=
  if (1 <=? v) && (v <=? 65535) then Ok v
  else Raise (ValidationError "ConnectionConfig" "port"
                "Port must be between 1 and 65535").

(** *** [PostgreSQLManager] *)

Record PostgreSQLManager : Type := {
  config : ConnectionConfig;
  engine : Engine
}.

Section Manager.

Variable self : PostgreSQLManager.

(** [PostgreSQLManager.list_tables] *)
Definition list_tables : M (list string) :=
  try_except
    (request CInspect (inspect (engine self)) ;;;
     tables <- request CGetTableNames (get_table_names (engine self)) ;;
     ret tables)
    (fun e => ret []).

(** The bodies of the four loops of [get_table_schema]. *)
Definition column_of (col_info : ColumnInfo) : outcome DatabaseColumn :=
  new_DatabaseColumn (ci_name col_info) (ci_type col_info)
    (ci_nullable col_info) (ci_default col_info).

Definition mark_primary_key (primary_keys : list string)
    (col : DatabaseColumn) : DatabaseColumn :=
  if bool_decide (dc_name col ∈ primary_keys) then set_primary_key col else col.

Definition foreign_key_of (fk : ForeignKeyInfo) : ForeignKey :=
  {| fk_constrained_columns := fki_constrained_columns fk;
     fk_referred_table := fki_referred_table fk;
     fk_referred_columns := fki_referred_columns fk;
     fk_name := fki_name fk |}.

Definition index_of (idx : IndexInfo) : TableIndex :=
  {| ix_name := ixi_name idx; ix_columns := ixi_column_names idx;
     ix_unique := ixi_unique idx |}.

(** The [try] block of [get_table_schema]. *)
Definition get_table_schema_try (table_name : string) : M TableSchema :=
  request CInspect (inspect (engine self)) ;;;
  (* Get columns *)
  columns_info <- request (CGetColumns table_name)
                    (get_columns (engine self) table_name) ;;
  columns <- lift (map_outcome column_of columns_info) ;;
  (* Get primary keys *)
  pk_constraint <- request (CGetPkConstraint table_name)
                     (get_pk_constraint (engine self) table_name) ;;
  let primary_keys := default [] pk_constraint in
  (* Update primary key info in columns *)
  let columns := map (mark_primary_key primary_keys) columns in
  (* Get foreign keys *)
  fk_info <- request (CGetForeignKeys table_name)
               (get_foreign_keys (engine self) table_name) ;;
  let foreign_keys := map foreign_key_of fk_info in
  (* Get indexes *)
  indexes_info <- request (CGetIndexes table_name)
                    (get_indexes (engine self) table_name) ;;
  let indexes := map index_of indexes_info in
  lift (new_TableSchema table_name columns primary_keys foreign_keys indexes).

(** [PostgreSQLManager.get_table_schema] *)
Definition get_table_schema (table_name : string) : M TableSchema :=
  try_except
    (get_table_schema_try table_name)
    (fun e => lift (new_TableSchema table_name [] [] [] [])).

(** The [for table in tables] loop of [get_database_schema], on the
    [tables] mapping of the schema under construction. *)
Fixpoint get_database_schema_loop (tables : list string)
    (schema_tables : gmap string TableSchema) : M (gmap string TableSchema) :=
  match tables with
  | [] => ret schema_tables
  | table :: rest =>
      table_schema <- get_table_schema table ;;
      get_database_schema_loop rest (<[table := table_schema]> schema_tables)
  end.

(** [PostgreSQLManager.get_database_schema] *)
Definition get_database_schema : M DatabaseSchema :=
  tables <- list_tables ;;
  schema_tables <- get_database_schema_loop tables ∅ ;;
  ret {| ds_database_name := database (config self);
         ds_tables := schema_tables;
         ds_total_tables := Z.of_nat (length tables) |}.

(** [PostgreSQLManager.execute_query] *)
Definition execute_query (query : string) : M QueryResult :=
  try_except
    (result <- request (CExecute query) (execute (engine self) query) ;;
     let execution_time := elapsed (engine self) query in
     match result with
     | ReturnsRows columns rows =>
         let data := map (fun row => Py.dict_zip columns row) rows in
         ret {| qr_success := true; qr_data := Some data; qr_error := None;
                qr_rows_affected := None;
                qr_execution_time := Some execution_time;
                qr_columns := Some columns |}
     | NoRows rowcount =>
         ret {| qr_success := true; qr_data := None; qr_error := None;
                qr_rows_affected := Some rowcount;
                qr_execution_time := Some execution_time;
                qr_columns := None |}
     end)
    (fun e =>
       let prefix :=
         match e with
         | SQLAlchemyError _ => "SQL Error: "
         | _ => "Unexpected error: "
         end in
       ret {| qr_success := false; qr_data := None;
              qr_error := Some (prefix +:+ str_exn e);
              qr_rows_affected := None;
              qr_execution_time := Some (elapsed (engine self) query);
              qr_columns := None |}).

(** [result.data] used as a condition: neither [None] nor the empty list. *)
Definition data_truthy (data : option (list (Py.dict Py.value))) : bool :=
  match data with
  | Some (_ :: _) => true
  | _ => false
  end.

(** [PostgreSQLManager.get_sample_data] *)
Definition get_sample_data (table_name : string) (limit : Z) : M SampleData :=
  try_except
    (let query :=
       "SELECT * FROM " +:+ table_name +:+ " LIMIT " +:+ Py.str_int limit in
     result <- execute_query query ;;
     if qr_success result && data_truthy (qr_data result)
     then ret {| sd_table_name := table_name;
                 sd_rows := default [] (qr_data result);
                 sd_total_rows_sampled :=
                   Z.of_nat (length (default [] (qr_data result)));
                 sd_columns := default [] (qr_columns result) |}
     else ret (empty_SampleData table_name))
    (fun e => ret (empty_SampleData table_name)).

End Manager.

(** *** Methods of the models *)

(** [DatabaseSchema.get_table_names]: [sorted(self.tables.keys())]. *)
Definition DatabaseSchema_get_table_names (self : DatabaseSchema) : list string :=
  merge_sort String.le (map fst (map_to_list (ds_tables self))).

(** [DatabaseSchema.get_table_by_name]: [self.tables.get(table_name)]. *)
Definition DatabaseSchema_get_table_by_name (self : DatabaseSchema)
    (table_name : string) : option TableSchema :=
  ds_tables self !! table_name.

(** [ConnectionConfig(host=, port=, username=, password=, database=)] *)
Definition new_ConnectionConfig (host : string) (port : Z)
    (username password database : string) : outcome ConnectionConfig :=
  match validate_port port with
  | Ok port' =>
      Ok {| host := host; port := port'; username := username;
            password := password; database := database |}
  | Raise e => Raise e
  end.

(** [ConnectionConfig.get_connection_string] *)
Definition ConnectionConfig_get_connection_string (self : ConnectionConfig) : string :=
  "postgresql://" +:+ username self +:+ ":" +:+ password self +:+ "@"
  +:+ host self +:+ ":" +:+ Py.str_int (port self) +:+ "/" +:+ database self.

(** [temp_config = self.config.model_copy(); temp_config.database = name] *)
Definition with_database (self : ConnectionConfig) (name : string) : ConnectionConfig :=
  {| host := host self; port := port self; username := username self;
     password := password self; database := name |}.

(** The statement of [list_databases], with the line breaks and the
    indentation of the source. *)
Definition list_databases_query : string :=
  Py.nl
  +:+ "                    SELECT datname FROM pg_database " +:+ Py.nl
  +:+ "                    WHERE datistemplate = false " +:+ Py.nl
  +:+ "                    ORDER BY datname" +:+ Py.nl
  +:+ "                ".

(** *** [PostgreSQLManager], continued *)

Section Manager_more.

Variable self : PostgreSQLManager.

(** SQLAlchemy's [create_engine], from a connection string. *)
Variable create_engine : string -> outcome Engine.

(** [PostgreSQLManager.list_databases]; [row[0]] needs a first field, and a
    result that returns no rows cannot be iterated. *)
Definition list_databases : M (list Py.value) :=
  try_except
    (let temp_config := with_database (config self) "postgres" in
     temp_engine <- lift (create_engine
                            (ConnectionConfig_get_connection_string temp_config)) ;;
     result <- request (CExecute list_databases_query)
                 (execute temp_engine list_databases_query) ;;
     match result with
     | ReturnsRows _ rows =>
         databases <- lift (map_outcome
                              (fun row =>
                                 match row with
                                 | v :: _ => Ok v
                                 | [] => Raise (OtherException "tuple index out of range")
                                 end) rows) ;;
         ret databases
     | NoRows _ =>
         raise (SQLAlchemyError
                  "This result object does not return rows. It has been closed automatically.")
     end)
    (fun e => ret []).

(** The lines of the columns in [generate_table_description]. *)
Fixpoint description_columns (columns : list DatabaseColumn) : string :=
  match columns with
  | [] => ""
  | col :: rest =>
      let nullable := if dc_nullable col then "" else " (NOT NULL)" in
      let default :=
        match dc_default col with
        | Some d => if Py.falsy d then "" else " DEFAULT " +:+ d
        | None => ""
        end in
      let pk := if dc_primary_key col then " (PRIMARY KEY)" else "" in
      "  - " +:+ dc_name col +:+ ": " +:+ dc_type col +:+ nullable +:+ default
      +:+ pk +:+ Py.nl +:+ description_columns rest
  end.

(** The lines of the foreign keys in [generate_table_description]. *)
Fixpoint description_foreign_keys (foreign_keys : list ForeignKey) : string :=
  match foreign_keys with
  | [] => ""
  | fk :: rest =>
      "  - " +:+ Py.repr_list (fk_constrained_columns fk) +:+ " -> "
      +:+ fk_referred_table fk +:+ "."
      +:+ Py.repr_list (fk_referred_columns fk) +:+ Py.nl
      +:+ description_foreign_keys rest
  end.

(** [PostgreSQLManager.generate_table_description] *)
Definition generate_table_description (table_name : string) : M string :=
  schema <- get_table_schema self table_name ;;
  match ts_columns schema with
  | [] => ret ("Table '" +:+ table_name +:+ "' not found or has no columns.")
  | _ =>
      let description :=
        "Table '" +:+ table_name +:+ "':" +:+ Py.nl +:+ "Columns:" +:+ Py.nl in
      let description := description +:+ description_columns (ts_columns schema) in
      let description :=
        match ts_foreign_keys schema with
        | [] => description
        | _ => description +:+ "Foreign Keys:" +:+ Py.nl
               +:+ description_foreign_keys (ts_foreign_keys schema)
        end in
      ret description
  end.

End Manager_more.

End postgres_db.

(** ** [mcp.py]: the database tools *)

Module mcp.

Import postgres_db.
Local Open Scope py_scope.

(** *** Response models *)

Record TableListResponse : Type := {
  tlr_success : bool;
  tlr_tables : list string;
  tlr_total_count : Z;
  tlr_error : option string
}.

Record QueryExecutionResponse : Type := {
  qer_success : bool;
  qer_query : string;
  qer_result : option QueryResult;
  qer_error : option string
}.

Record SampleDataResponse : Type := {
  sdr_success : bool;
  sdr_table_name : string;
  sdr_sample_data : option SampleData;
  sdr_error : option string
}.

(** The lines ["{i}. {table}\n"] of [enumerate(tables, i)]. *)
Fixpoint numbered_lines (i : Z) (tables : list string) : string :=
  match tables with
  | [] => ""
  | table :: rest =>
      Py.str_int i +:+ ". " +:+ table +:+ Py.nl +:+ numbered_lines (i + 1) rest
  end.

(** [TableListResponse.get_formatted_response] *)
Definition format_TableListResponse (self : TableListResponse) : string :=
  if negb (tlr_success self) then "Error: " +:+ Py.str_opt (tlr_error self)
  else
    match tlr_tables self with
    | [] => "No tables found in the database"
    | _ =>
        Py.strip ("Found " +:+ Py.str_int (tlr_total_count self)
                  +:+ " tables in the database:" +:+ Py.nl
                  +:+ numbered_lines 1 (tlr_tables self))
    end.

(** [" | ".join([str(row.get(col, 'NULL')) for col in cols])] *)
Definition row_values (cols : list string) (row : Py.dict Py.value) : string :=
  Py.join " | "
    (map (fun col =>
            match Py.dict_get col row with
            | Some v => Py.str_value v
            | None => "NULL"
            end) cols).

(** The header block printed when the column list is not empty. *)
Definition header_lines (columns : list string) : string :=
  match columns with
  | [] => ""
  | _ =>
      let headers := Py.join " | " columns in
      "  " +:+ headers +:+ Py.nl
      +:+ "  " +:+ Py.repeat_char "-" (Py.len headers) +:+ Py.nl
  end.

(** One line per row; [columns or row.keys()] selects the keys. *)
Fixpoint row_lines (columns : list string) (rows : list (Py.dict Py.value)) : string :=
  match rows with
  | [] => ""
  | row :: rest =>
      let cols := match columns with [] => Py.dict_keys row | _ => columns end in
      "  " +:+ row_values cols row +:+ Py.nl +:+ row_lines columns rest
  end.

(** [QueryExecutionResponse.get_formatted_response] *)
Definition format_QueryExecutionResponse (self : QueryExecutionResponse) : string :=
  if negb (qer_success self)
  then "Query failed: " +:+ Py.str_opt (qer_error self) +:+ Py.nl
       +:+ "Query: " +:+ qer_query self
  else
    match qer_result self with
    | None =>
        "Query executed but no result returned" +:+ Py.nl
        +:+ "Query: " +:+ qer_query self
    | Some result =>
        if negb (qr_success result)
        then "Query execution failed: " +:+ Py.str_opt (qr_error result) +:+ Py.nl
             +:+ "Query: " +:+ qer_query self
        else
          let response := "Query executed successfully" in
          let response :=
            match qr_execution_time result with
            | Some t =>
                if Py.float_truthy t
                then response +:+ " (took " +:+ Py.float_3f t +:+ "s)"
                else response
            | None => response
            end in
          let response :=
            response +:+ Py.nl +:+ "Query: " +:+ qer_query self +:+ Py.nl +:+ Py.nl in
          if data_truthy (qr_data result)
          then
            let data := default [] (qr_data result) in
            let columns := default [] (qr_columns result) in
            let response :=
              response +:+ "Results (" +:+ Py.str_int (Z.of_nat (length data))
              +:+ " rows):" +:+ Py.nl in
            let response := response +:+ header_lines columns in
            (* Show data rows (limit to first 10) *)
            let response := response +:+ row_lines columns (take 10 data) in
            if 10 <? Z.of_nat (length data)
            then response +:+ "  ... and "
                 +:+ Py.str_int (Z.of_nat (length data) - 10)
                 +:+ " more rows" +:+ Py.nl
            else response
          else
            match qr_rows_affected result with
            | Some n => response +:+ "Rows affected: " +:+ Py.str_int n +:+ Py.nl
            | None => response
            end
    end.

(** [SampleDataResponse.get_formatted_response] *)
Definition format_SampleDataResponse (self : SampleDataResponse) : string :=
  if negb (sdr_success self)
  then "Error getting sample data from table '" +:+ sdr_table_name self
       +:+ "': " +:+ Py.str_opt (sdr_error self)
  else
    match sdr_sample_data self with
    | None => "No sample data found in table '" +:+ sdr_table_name self +:+ "'"
    | Some sample_data =>
        match sd_rows sample_data with
        | [] => "No sample data found in table '" +:+ sdr_table_name self +:+ "'"
        | _ =>
            "Sample data from '" +:+ sdr_table_name self +:+ "' ("
            +:+ Py.str_int (sd_total_rows_sampled sample_data) +:+ " rows):"
            +:+ Py.nl +:+ Py.nl
            +:+ header_lines (sd_columns sample_data)
            +:+ row_lines (sd_columns sample_data) (sd_rows sample_data)
        end
    end.

(** *** [re.search(r'FROM\s+(\w+)', sql_query, re.IGNORECASE)] *)

(** [\w] on the ASCII range. *)
Definition isword (c : ascii) : bool :=
  let n := N_of_ascii c in
  ((48 <=? n) && (n <=? 57) || (65 <=? n) && (n <=? 90)
   || (97 <=? n) && (n <=? 122) || (n =? 95))%N.

(** The longest prefix of word characters. *)
Fixpoint take_word (s : string) : string :=
  match s with
  | String c s' => if isword c then String c (take_word s') else ""
  | EmptyString => ""
  end.

(** The suffix of [s] after its first [n] characters. *)
Fixpoint drop_string (n : nat) (s : string) : string :=
  match n, s with
  | O, _ => s
  | S n', String _ s' => drop_string n' s'
  | S _, EmptyString => EmptyString
  end.

(** A match anchored at the start of [s]: [Some] of group 1. *)
Definition match_from_here (s : string) : option string :=
  if String.prefix "FROM" (Py.upper s)
  then
    let after := drop_string 4 s in
    let rest := Py.lstrip after in
    if bool_decide (rest = after) then None       (* [\s+] needs one space *)
    else match take_word rest with
         | EmptyString => None                    (* [\w+] needs one character *)
         | w => Some w
         end
  else None.

(** The leftmost match. *)
Fixpoint search_from_table (s : string) : option string :=
  match match_from_here s with
  | Some w => Some w
  | None =>
      match s with
      | String _ s' => search_from_table s'
      | EmptyString => None
      end
  end.

(** *** [f"{row_count:,}"] *)

(** Groups of three digits, on the reversed digit string; [k] digits of the
    current group are already out. *)
Fixpoint commas_rev (s : string) (k : nat) : string :=
  match s with
  | EmptyString => EmptyString
  | String c s' =>
      match k with
      | 3%nat => String "," (String c (commas_rev s' 1))
      | _ => String c (commas_rev s' (S k))
      end
  end.

Definition format_comma_int (n : Z) : string :=
  (if n <? 0 then "-" else "")
  +:+ String.rev (commas_rev (String.rev (Py.str_int (Z.abs n))) 0).

(** The format [","] is defined for numbers only. *)
Definition format_comma (v : Py.value) : outcome string :=
  match v with
  | Py.VInt n => Ok (format_comma_int n)
  | Py.VStr _ => Raise (ValueError "Cannot specify ',' with 's'.")
  | Py.VNone =>
      Raise (TypeError "unsupported format string passed to NoneType.__format__")
  end.

(** *** The tools *)

Section Tools.

(** The module-level [db_manager = PostgreSQLManager()]. *)
Variable db_manager : PostgreSQLManager.

(** The tool [list_tables] *)
Definition list_tables : M string :=
  try_except
    (tables <- postgres_db.list_tables db_manager ;;
     let response :=
       {| tlr_success := true; tlr_tables := tables;
          tlr_total_count := Z.of_nat (length tables); tlr_error := None |} in
     ret (format_TableListResponse response))
    (fun e =>
       let response :=
         {| tlr_success := false; tlr_tables := []; tlr_total_count := 0;
            tlr_error := Some (str_exn e) |} in
       ret (format_TableListResponse response)).

(** The response built when the safety check refuses a statement. *)
Definition policy_violation (sql_query : string) : QueryExecutionResponse :=
  {| qer_success := false; qer_query := sql_query; qer_result := None;
     qer_error := Some "Only SELECT queries are allowed for security reasons" |}.

(** The tool [execute_select_query] *)
Definition execute_select_query (sql_query : string) : M string :=
  try_except
    ((* Safety check: only allow SELECT queries *)
     if negb (Py.startswith (Py.upper (Py.strip sql_query)) "SELECT")
     then ret (format_QueryExecutionResponse (policy_violation sql_query))
     else
       result <- execute_query db_manager sql_query ;;
       if negb (qr_success result)
       then
         (* Enhanced error handling with suggestions *)
         match qr_error result with
         | None => raise (OtherException "'NoneType' object has no attribute 'lower'")
         | Some error_msg =>
             let suggestions :=
               if Py.contains "column" (Py.lower error_msg)
                  && Py.contains "does not exist" (Py.lower error_msg)
               then
                 match search_from_table sql_query with
                 | Some table_name =>
                     Py.nl +:+ Py.nl
                     +:+ "SUGGESTION: The column name might be incorrect. Please use get_table_schema(table_name='"
                     +:+ table_name
                     +:+ "') to check the exact column names available in the table."
                 | None => ""
                 end
               else "" in
             let enhanced_error := error_msg +:+ suggestions in
             ret (format_QueryExecutionResponse
                    {| qer_success := false; qer_query := sql_query;
                       qer_result := None; qer_error := Some enhanced_error |})
         end
       else
         ret (format_QueryExecutionResponse
                {| qer_success := true; qer_query := sql_query;
                   qer_result := Some result; qer_error := None |}))
    (fun e =>
       ret (format_QueryExecutionResponse
              {| qer_success := false; qer_query := sql_query;
                 qer_result := None;
                 qer_error :=
                   Some ("Unexpected error: " +:+ str_exn e
                         +:+ ". Please check your SQL syntax and table/column names.") |})).

(** The tool [get_sample_data] *)
Definition get_sample_data (table_name : string) (limit : Z) : M string :=
  try_except
    ((* Limit the maximum number of rows to prevent overwhelming responses *)
     let safe_limit := Z.min limit 20 in
     sample_data <- postgres_db.get_sample_data db_manager table_name safe_limit ;;
     let response :=
       {| sdr_success := true; sdr_table_name := table_name;
          sdr_sample_data := Some sample_data; sdr_error := None |} in
     ret (format_SampleDataResponse response))
    (fun e =>
       let response :=
         {| sdr_success := false; sdr_table_name := table_name;
            sdr_sample_data := None; sdr_error := Some (str_exn e) |} in
       ret (format_SampleDataResponse response)).

(** The block ["Column Details:"] of [get_table_statistics]. *)
Fixpoint column_details (columns : list DatabaseColumn) : string :=
  match columns with
  | [] => ""
  | col :: rest =>
      "  • " +:+ dc_name col +:+ ":" +:+ Py.nl
      +:+ "    - Type: " +:+ dc_type col +:+ Py.nl
      +:+ "    - Nullable: " +:+ (if dc_nullable col then "Yes" else "No") +:+ Py.nl
      +:+ (match dc_default col with
           | Some d =>
               if Py.falsy d then ""
               else "    - Default: " +:+ d +:+ Py.nl
           | None => ""
           end)
      +:+ (if dc_primary_key col
           then "    - Primary Key: Yes" +:+ Py.nl else "")
      +:+ Py.nl
      +:+ column_details rest
  end.

(** The inner [try] of [get_table_statistics]: the row count, appended to
    the response built so far. *)
Definition row_count_lines (table_name response : string) : M string :=
  try_except
    (count_result <- execute_query db_manager
                       ("SELECT COUNT(*) as row_count FROM " +:+ table_name) ;;
     if qr_success count_result && data_truthy (qr_data count_result)
     then
       match default [] (qr_data count_result) with
       | row :: _ =>
           match Py.dict_get "row_count" row with
           | Some row_count =>
               shown <- lift (format_comma row_count) ;;
               ret (response +:+ "Total Rows: " +:+ shown +:+ Py.nl +:+ Py.nl)
           | None => raise (KeyError "row_count")
           end
       | [] => ret response
       end
     else ret response)
    (fun e =>
       ret (response +:+ "Row count: Unable to determine (" +:+ str_exn e +:+ ")"
            +:+ Py.nl +:+ Py.nl)).

(** The tool [get_table_statistics] *)
Definition get_table_statistics (table_name : string) : M string :=
  try_except
    ((* Get basic schema info *)
     schema <- get_table_schema db_manager table_name ;;
     match ts_columns schema with
     | [] => ret ("Table '" +:+ table_name +:+ "' not found or has no columns")
     | _ =>
         let response :=
           "Statistics for table '" +:+ table_name +:+ "'" +:+ Py.nl
           +:+ Py.repeat_char "-" (Py.len table_name + 25) +:+ Py.nl +:+ Py.nl in
         (* Basic info *)
         let response :=
           response
           +:+ "Column Count: "
           +:+ Py.str_int (Z.of_nat (length (ts_columns schema))) +:+ Py.nl
           +:+ "Primary Keys: "
           +:+ Py.str_int (Z.of_nat (length (ts_primary_keys schema))) +:+ Py.nl
           +:+ "Foreign Keys: "
           +:+ Py.str_int (Z.of_nat (length (ts_foreign_keys schema))) +:+ Py.nl
           +:+ "Indexes: "
           +:+ Py.str_int (Z.of_nat (length (ts_indexes schema))) +:+ Py.nl +:+ Py.nl in
         (* Get row count *)
         response <- row_count_lines table_name response ;;
         (* Column details *)
         ret (response +:+ "Column Details:" +:+ Py.nl
              +:+ column_details (ts_columns schema))
     end)
    (fun e =>
       ret ("Error getting statistics for table '" +:+ table_name +:+ "': "
            +:+ str_exn e)).

End Tools.

(** *** More response models *)

Record TableSchemaResponse : Type := {
  tsr_success : bool;
  tsr_table_name : string;
  tsr_table_schema : option TableSchema;
  tsr_error : option string
}.


Record TranscriptResponse : Type := {
  tr_success : bool;
  tr_video_id : string;
  tr_url : string;
  tr_transcript : option string;
  tr_word_count : option Z;
  tr_error : option string
}.

(** The column lines of [TableSchemaResponse.get_formatted_response]. *)
Fixpoint schema_column_lines (columns : list DatabaseColumn) : string :=
  match columns with
  | [] => ""
  | col :: rest =>
      let nullable := if dc_nullable col then "NULL" else "NOT NULL" in
      let pk_indicator := if dc_primary_key col then " 🔑" else "" in
      let fk_indicator :=
        match dc_foreign_key col with
        | Some f => if Py.falsy f then "" else " 🔗"
        | None => ""
        end in
      "  • " +:+ dc_name col +:+ ": " +:+ dc_type col +:+ " (" +:+ nullable
      +:+ ")" +:+ pk_indicator +:+ fk_indicator +:+ Py.nl
      +:+ (match dc_default col with
           | Some d => if Py.falsy d then ""
                       else "    DEFAULT: " +:+ d +:+ Py.nl
           | None => ""
           end)
      +:+ schema_column_lines rest
  end.

Fixpoint schema_foreign_key_lines (foreign_keys : list ForeignKey) : string :=
  match foreign_keys with
  | [] => ""
  | fk :: rest =>
      "  • " +:+ Py.join ", " (fk_constrained_columns fk) +:+ " → "
      +:+ fk_referred_table fk +:+ "."
      +:+ Py.join ", " (fk_referred_columns fk) +:+ Py.nl
      +:+ schema_foreign_key_lines rest
  end.

Fixpoint schema_index_lines (indexes : list TableIndex) : string :=
  match indexes with
  | [] => ""
  | idx :: rest =>
      let unique_indicator := if ix_unique idx then " (UNIQUE)" else "" in
      "  • " +:+ ix_name idx +:+ ": " +:+ Py.join ", " (ix_columns idx)
      +:+ unique_indicator +:+ Py.nl +:+ schema_index_lines rest
  end.

(** [TableSchemaResponse.get_formatted_response] *)
Definition format_TableSchemaResponse (self : TableSchemaResponse) : string :=
  if negb (tsr_success self)
  then "Error getting schema for table '" +:+ tsr_table_name self +:+ "': "
       +:+ Py.str_opt (tsr_error self)
  else
    let none_found :=
      "No schema information found for table '" +:+ tsr_table_name self +:+ "'" in
    match tsr_table_schema self with
    | None => none_found
    | Some table_schema =>
        match ts_columns table_schema with
        | [] => none_found
        | columns =>
            let response :=
              "Schema for table '" +:+ tsr_table_name self +:+ "':" +:+ Py.nl
              +:+ Py.nl
              +:+ "Columns (" +:+ Py.str_int (Z.of_nat (length columns)) +:+ "):"
              +:+ Py.nl +:+ schema_column_lines columns in
            let response :=
              match ts_foreign_keys table_schema with
              | [] => response
              | foreign_keys =>
                  response +:+ Py.nl +:+ "Foreign Keys ("
                  +:+ Py.str_int (Z.of_nat (length foreign_keys)) +:+ "):"
                  +:+ Py.nl +:+ schema_foreign_key_lines foreign_keys
              end in
            match ts_indexes table_schema with
            | [] => response
            | indexes =>
                response +:+ Py.nl +:+ "Indexes ("
                +:+ Py.str_int (Z.of_nat (length indexes)) +:+ "):"
                +:+ Py.nl +:+ schema_index_lines indexes
            end
        end
    end.



(** [TranscriptResponse.get_formatted_response]; the format [","] of the
    word count needs a number. *)
Definition format_TranscriptResponse (self : TranscriptResponse) : outcome string :=
  if negb (tr_success self)
  then Ok ("Error fetching transcript: " +:+ Py.str_opt (tr_error self) +:+ Py.nl
           +:+ "URL: " +:+ tr_url self)
  else
    match tr_transcript self with
    | None => Ok ("No transcript found for video: " +:+ tr_url self)
    | Some transcript =>
        if Py.falsy transcript
        then Ok ("No transcript found for video: " +:+ tr_url self)
        else
          match tr_word_count self with
          | None =>
              Raise (TypeError
                       "unsupported format string passed to NoneType.__format__")
          | Some word_count =>
              Ok (Py.strip
                    ("Transcript for YouTube Video: " +:+ tr_url self +:+ Py.nl
                     +:+ Py.repeat_char "-" (Py.len (tr_url self) + 20)
                     +:+ Py.nl +:+ Py.nl
                     +:+ "Video ID: " +:+ tr_video_id self +:+ Py.nl
                     +:+ "Word Count: " +:+ format_comma_int word_count
                     +:+ Py.nl +:+ Py.nl
                     +:+ "Full Transcript (Single Paragraph):" +:+ Py.nl
                     +:+ transcript +:+ Py.nl))
          end
    end.

(** *** The patterns of the video identifier *)

(** The class [[0-9A-Za-z_-]]. *)
Definition isid (c : ascii) : bool :=
  let n := N_of_ascii c in
  ((48 <=? n) && (n <=? 57) || (65 <=? n) && (n <=? 90)
   || (97 <=? n) && (n <=? 122) || (n =? 95) || (n =? 45))%N.

(** [[0-9A-Za-z_-]{n}] at the start of [s]: the characters matched. *)
Fixpoint take_id (n : nat) (s : string) : option string :=
  match n with
  | O => Some ""
  | S n' =>
      match s with
      | String c s' =>
          if isid c
          then match take_id n' s' with
               | Some w => Some (String c w)
               | None => None
               end
          else None
      | EmptyString => None
      end
  end.

(** [(?:v=|\/)([0-9A-Za-z_-]{11}).*] at the start of [s]: group 1. *)
Definition match_watch (s : string) : option string :=
  if String.prefix "v=" s then take_id 11 (drop_string 2 s)
  else if String.prefix "/" s then take_id 11 (drop_string 1 s)
  else None.

(** [(?:embed\/)([0-9A-Za-z_-]{11})] at the start of [s]. *)
Definition match_embed (s : string) : option string :=
  if String.prefix "embed/" s then take_id 11 (drop_string 6 s) else None.

(** [(?:youtu\.be\/)([0-9A-Za-z_-]{11})] at the start of [s]. *)
Definition match_short (s : string) : option string :=
  if String.prefix "youtu.be/" s then take_id 11 (drop_string 9 s) else None.

(** [re.search]: the match that starts leftmost. *)
Fixpoint re_search (match_here : string -> option string) (s : string)
    : option string :=
  match match_here s with
  | Some w => Some w
  | None =>
      match s with
      | String _ s' => re_search match_here s'
      | EmptyString => None
      end
  end.

(** The loop over [patterns] in [get_transcript]. *)
Definition extract_video_id (url : string) : option string :=
  match re_search match_watch url with
  | Some video_id => Some video_id
  | None =>
      match re_search match_embed url with
      | Some video_id => Some video_id
      | None => re_search match_short url
      end
  end.

(** [re.match(r'^[A-Za-z0-9_-]{11}$', v)]: eleven characters of the class,
    then the end of the text or a line feed that ends it. *)
Definition match_video_id (v : string) : bool :=
  match take_id 11 v with
  | Some _ =>
      let rest := drop_string 11 v in
      bool_decide (rest = "") || bool_decide (rest = Py.nl)
  | None => false
  end.

(** [YouTubeVideo.validate_video_id] *)
Definition validate_video_id (v : string) : outcome string :=
  if Py.falsy v || negb (match_video_id v)
  then Raise (ValidationError "YouTubeVideo" "video_id"
                "Invalid YouTube video ID format")
  else Ok v.

(** The [try] block of [get_transcript], after the loop over the patterns;
    [get_api_transcript] is [YouTubeTranscriptApi.get_transcript], and the
    fields read from an item of its list are strings. *)
Definition get_transcript_try
    (get_api_transcript : string -> outcome (list (Py.dict string)))
    (url : string) (video_id : option string) : outcome string :=
    match video_id with
    | None => Raise (ValueError "Invalid YouTube URL")
    | Some video_id =>
        if Py.falsy video_id then Raise (ValueError "Invalid YouTube URL")
        else
          (* Validate video ID *)
          match validate_video_id video_id with
          | Raise e => Raise e
          | Ok _ =>
              (* Fetch transcript *)
              match get_api_transcript video_id with
              | Raise e => Raise e
              | Ok transcript_list =>
                  match map_outcome
                          (fun item =>
                             match Py.dict_get "text" item with
                             | Some text => Ok text
                             | None => Raise (KeyError "text")
                             end) transcript_list with
                  | Raise e => Raise e
                  | Ok texts =>
                      let transcript_text := Py.join " " texts in
                      let word_count :=
                        Z.of_nat (length (Py.split transcript_text)) in
                      format_TranscriptResponse
                        {| tr_success := true; tr_video_id := video_id;
                           tr_url := url;
                           tr_transcript := Some transcript_text;
                           tr_word_count := Some word_count;
                           tr_error := None |}
                  end
              end
          end
    end.

(** The tool [get_transcript]; the [except] branch reads the [video_id]
    that the loop has set. *)
Definition get_transcript
    (get_api_transcript : string -> outcome (list (Py.dict string)))
    (url : string) : outcome string :=
  (* Extract video ID *)
  let video_id := extract_video_id url in
  match get_transcript_try get_api_transcript url video_id with
  | Ok out => Ok out
  | Raise e =>
      let video_id_or_unknown :=
        match video_id with
        | Some v => if Py.falsy v then "unknown" else v
        | None => "unknown"
        end in
      format_TranscriptResponse
        {| tr_success := false; tr_video_id := video_id_or_unknown;
           tr_url := url; tr_transcript := None; tr_word_count := None;
           tr_error := Some (str_exn e) |}
  end.

(** *** More tools *)

Section MoreTools.

Variable db_manager : PostgreSQLManager.

(** The tool [get_table_schema] *)
Definition get_table_schema (table_name : string) : M string :=
  try_except
    (schema <- postgres_db.get_table_schema db_manager table_name ;;
     let response :=
       {| tsr_success := true; tsr_table_name := table_name;
          tsr_table_schema := Some schema; tsr_error := None |} in
     ret (format_TableSchemaResponse response))
    (fun e =>
       let response :=
         {| tsr_success := false; tsr_table_name := table_name;
            tsr_table_schema := None; tsr_error := Some (str_exn e) |} in
       ret (format_TableSchemaResponse response)).


(** [any(t in type.lower() for t in words)] *)
Definition type_has (words : list string) (col : DatabaseColumn) : bool :=
  existsb (fun t => Py.contains t (Py.lower (dc_type col))) words.

Fixpoint text_query_lines (table_name : string) (cols : list string) : string :=
  match cols with
  | [] => ""
  | col :: rest =>
      "  • SELECT " +:+ col +:+ ", COUNT(*) FROM " +:+ table_name
      +:+ " GROUP BY " +:+ col +:+ " ORDER BY COUNT(*) DESC LIMIT 10;" +:+ Py.nl
      +:+ text_query_lines table_name rest
  end.

Fixpoint numeric_query_lines (table_name : string) (cols : list string) : string :=
  match cols with
  | [] => ""
  | col :: rest =>
      "  • SELECT MIN(" +:+ col +:+ "), MAX(" +:+ col +:+ "), AVG(" +:+ col
      +:+ ") FROM " +:+ table_name +:+ ";" +:+ Py.nl
      +:+ numeric_query_lines table_name rest
  end.

Fixpoint date_query_lines (table_name : string) (cols : list string) : string :=
  match cols with
  | [] => ""
  | col :: rest =>
      "  • SELECT MIN(" +:+ col +:+ "), MAX(" +:+ col +:+ ") FROM "
      +:+ table_name +:+ ";" +:+ Py.nl
      +:+ date_query_lines table_name rest
  end.

(** The join lines; [columns[0]] needs a first element. *)
Fixpoint join_query_lines (table_name : string) (foreign_keys : list ForeignKey)
    : outcome string :=
  match foreign_keys with
  | [] => Ok ""
  | fk :: rest =>
      match fk_constrained_columns fk, fk_referred_columns fk with
      | c :: _, r :: _ =>
          match join_query_lines table_name rest with
          | Ok lines =>
              Ok ("  • SELECT * FROM " +:+ table_name +:+ " t1 JOIN "
                  +:+ fk_referred_table fk +:+ " t2 ON t1." +:+ c +:+ " = t2."
                  +:+ r +:+ " LIMIT 10;" +:+ Py.nl +:+ lines)
          | Raise e => Raise e
          end
      | _, _ => Raise (OtherException "list index out of range")
      end
  end.

(** The tool [suggest_useful_queries] *)
Definition suggest_useful_queries (table_name : string) : M string :=
  try_except
    (schema <- postgres_db.get_table_schema db_manager table_name ;;
     match ts_columns schema with
     | [] => ret ("Table '" +:+ table_name +:+ "' not found or has no columns")
     | columns =>
         let response :=
           "Suggested Queries for '" +:+ table_name +:+ "'" +:+ Py.nl
           +:+ Py.repeat_char "-" (Py.len table_name + 25) +:+ Py.nl +:+ Py.nl in
         (* Basic exploration queries *)
         let response :=
           response +:+ "Basic Exploration:" +:+ Py.nl
           +:+ "  1. SELECT * FROM " +:+ table_name +:+ " LIMIT 10;" +:+ Py.nl
           +:+ "  2. SELECT COUNT(*) FROM " +:+ table_name +:+ ";" +:+ Py.nl in
         (* Column-specific queries *)
         let text_columns :=
           map dc_name (List.filter (type_has ["char"; "text"]) columns) in
         let numeric_columns :=
           map dc_name
             (List.filter (type_has ["int"; "float"; "decimal"; "numeric"]) columns) in
         let date_columns :=
           map dc_name
             (List.filter (type_has ["date"; "time"; "timestamp"]) columns) in
         let response :=
           match text_columns with
           | [] => response
           | _ => response +:+ Py.nl +:+ "Text Column Analysis:" +:+ Py.nl
                  +:+ text_query_lines table_name (take 3 text_columns)
           end in
         let response :=
           match numeric_columns with
           | [] => response
           | _ => response +:+ Py.nl +:+ "Numeric Column Analysis:" +:+ Py.nl
                  +:+ numeric_query_lines table_name (take 3 numeric_columns)
           end in
         let response :=
           match date_columns with
           | [] => response
           | _ => response +:+ Py.nl +:+ "Date Column Analysis:" +:+ Py.nl
                  +:+ date_query_lines table_name (take 2 date_columns)
           end in
         (* Foreign key joins *)
         match ts_foreign_keys schema with
         | [] => ret response
         | foreign_keys =>
             lines <- lift (join_query_lines table_name (take 2 foreign_keys)) ;;
             ret (response +:+ Py.nl +:+ "Join Queries:" +:+ Py.nl +:+ lines)
         end
     end)
    (fun e =>
       ret ("Error suggesting queries for table '" +:+ table_name +:+ "': "
            +:+ str_exn e)).

End MoreTools.

End mcp.

(** ** Sample engines

    Small databases used to run the code on concrete inputs. *)

Module Fixtures.

Import postgres_db.

Definition column (name type : string) (nullable : bool) : ColumnInfo :=
  {| ci_name := name; ci_type := type; ci_nullable := nullable;
     ci_default := None |}.

Definition an_elapsed : Py.float :=
  {| Py.float_truthy := true; Py.float_3f := "0.002" |}.

Definition a_config : ConnectionConfig :=
  {| host := "localhost"; port := 5432; username := "postgres";
     password := ""; database := "shop" |}.

(** The statement without its [--] comment (SQL ends a comment at the end of
    the line; the statements below are single lines). *)
Fixpoint drop_comment (q : string) : string :=
  match q with
  | String c q' =>
      if String.prefix "--" q then "" else String c (drop_comment q')
  | EmptyString => EmptyString
  end.

(** A decimal literal. *)
Fixpoint parse_digits (acc : Z) (s : string) : option Z :=
  match s with
  | EmptyString => Some acc
  | String c s' =>
      let n := Z.of_N (N_of_ascii c) in
      if (48 <=? n) && (n <=? 57) then parse_digits (10 * acc + (n - 48)) s'
      else None
  end.

Definition parse_limit (s : string) : option Z :=
  match s with
  | EmptyString => None
  | _ => parse_digits 0 s
  end.

(** The thirty rows of the table [orders], with the single column [id]. *)
Definition orders_rows : list (list Py.value) :=
  map (fun i => [Py.VInt i]) (seqZ 1 30).

(** [SELECT * FROM orders LIMIT n], as SQL reads it: the comment is dropped
    and at most [n] rows are returned. Anything else is a syntax error. *)
Definition shop_execute (q : string) : outcome ExecReply :=
  let q := Py.strip (drop_comment q) in
  if String.prefix "SELECT * FROM orders LIMIT " q
  then
    match parse_limit (mcp.drop_string 27 q) with
    | Some n => Ok (ReturnsRows ["id"] (take (Z.to_nat n) orders_rows))
    | None => Raise (SQLAlchemyError "syntax error")
    end
  else if bool_decide (q = "SELECT COUNT(*) as row_count FROM orders")
  then Ok (ReturnsRows ["row_count"] [[Py.VInt 30]])
  else if String.prefix "SELECT COUNT(*) as row_count FROM users" q
  then Raise (SQLAlchemyError "permission denied for table users")
  else Raise (SQLAlchemyError "syntax error").

(** A database with the tables [users] and [orders]; the connected role may
    read the catalog and [orders], but not the rows of [users]. *)
Definition shop_engine : Engine :=
  {| inspect := Ok tt;
     get_table_names := Ok ["users"; "orders"];
     get_columns t :=
       if bool_decide (t = "users")
       then Ok [column "id" "INTEGER" false; column "name" "VARCHAR(50)" true]
       else if bool_decide (t = "orders")
       then Ok [column "id" "INTEGER" false; column "user_id" "INTEGER" true]
       else Raise (SQLAlchemyError t);
     get_pk_constraint t := Ok (Some ["id"]);
     get_foreign_keys t :=
       if bool_decide (t = "orders")
       then Ok [ {| fki_constrained_columns := ["user_id"];
                    fki_referred_table := "users";
                    fki_referred_columns := ["id"];
                    fki_name := Some "orders_user_id_fkey" |} ]
       else Ok [];
     get_indexes t := Ok [];
     execute := shop_execute;
     elapsed q := an_elapsed |}.

Definition shop : PostgreSQLManager :=
  {| config := a_config; engine := shop_engine |}.

(** A server that went away: every request fails. *)
Definition down_engine : Engine :=
  {| inspect := Ok tt;
     get_table_names := Raise (SQLAlchemyError "server closed the connection");
     get_columns t := Raise (SQLAlchemyError "server closed the connection");
     get_pk_constraint t := Raise (SQLAlchemyError "server closed the connection");
     get_foreign_keys t := Raise (SQLAlchemyError "server closed the connection");
     get_indexes t := Raise (SQLAlchemyError "server closed the connection");
     execute q := Raise (SQLAlchemyError "server closed the connection");
     elapsed q := an_elapsed |}.

Definition down : PostgreSQLManager :=
  {| config := a_config; engine := down_engine |}.

(** A catalog that lists the given names, whatever they are. *)
Definition listing_engine (names : list string) : Engine :=
  {| inspect := Ok tt;
     get_table_names := Ok names;
     get_columns t := Ok [column "id" "INTEGER" false];
     get_pk_constraint t := Ok (Some ["id"]);
     get_foreign_keys t := Ok [];
     get_indexes t := Ok [];
     execute q := Raise (SQLAlchemyError "syntax error");
     elapsed q := an_elapsed |}.

Definition listing (names : list string) : PostgreSQLManager :=
  {| config := a_config; engine := listing_engine names |}.

(** A table created as [CREATE TABLE t (" id" integer PRIMARY KEY)]: the
    name of its key column starts with a space. *)
Definition spaced_engine : Engine :=
  {| inspect := Ok tt;
     get_table_names := Ok ["t"];
     get_columns t := Ok [column " id" "INTEGER" false];
     get_pk_constraint t := Ok (Some [" id"]);
     get_foreign_keys t := Ok [];
     get_indexes t := Ok [];
     execute q := Raise (SQLAlchemyError "syntax error");
     elapsed q := an_elapsed |}.

Definition spaced : PostgreSQLManager :=
  {| config := a_config; engine := spaced_engine |}.

End Fixtures.

(** ** Notions used to state the properties *)

Section Notions.

Import postgres_db.

Definition is_raise {A} (o : outcome A) : bool :=
  match o with
  | Raise _ => true
  | Ok _ => false
  end.

(** The schema that [TableSchema(table_name=table_name)] builds. *)
Definition empty_schema (table_name : string) : TableSchema :=
  {| ts_table_name := Py.strip table_name; ts_columns := [];
     ts_primary_keys := []; ts_foreign_keys := []; ts_indexes := [];
     ts_row_count := None |}.

(** One of the requests of the introspection is refused by the engine. *)
Definition fetch_fails (self : PostgreSQLManager) (table_name : string) : bool :=
  is_raise (inspect (engine self))
  || is_raise (get_columns (engine self) table_name)
  || is_raise (get_pk_constraint (engine self) table_name)
  || is_raise (get_foreign_keys (engine self) table_name)
  || is_raise (get_indexes (engine self) table_name).

(** The names of the columns whose [primary_key] flag is set. *)
Definition primary_key_columns (s : TableSchema) : list string :=
  map dc_name (List.filter dc_primary_key (ts_columns s)).


(** The rows that the engine returns for a statement; none when it fails or
    returns no rows. *)
Definition engine_rows (self : PostgreSQLManager) (query : string)
    : list (list Py.value) :=
  match execute (engine self) query with
  | Ok (ReturnsRows _ rows) => rows
  | _ => []
  end.

(** The statement that [get_sample_data] sends. *)
Definition sample_query (table_name : string) (limit : Z) : string :=
  "SELECT * FROM " +:+ table_name +:+ " LIMIT " +:+ Py.str_int limit.

(** The statement that [get_table_statistics] sends. *)
Definition count_query (table_name : string) : string :=
  "SELECT COUNT(*) as row_count FROM " +:+ table_name.

End Notions.

(** ** Further notions *)

Section MoreNotions.

Import postgres_db.

(** The verdict of the safety check of [execute_select_query]. *)
Definition passes_gate (sql_query : string) : bool :=
  Py.startswith (Py.upper (Py.strip sql_query)) "SELECT".

(** A request that reads the catalog: anything but a statement. *)
Definition is_catalog_request (c : Call) : bool :=
  match c with
  | CExecute _ => false
  | _ => true
  end.

(** The requests of one introspection, in the order of the code. *)
Definition introspection_requests (table_name : string) : list Call :=
  [CInspect; CGetColumns table_name; CGetPkConstraint table_name;
   CGetForeignKeys table_name; CGetIndexes table_name].

(** Every character of the text satisfies the test. *)
Fixpoint all_chars (p : ascii -> bool) (s : string) : bool :=
  match s with
  | EmptyString => true
  | String c s' => p c && all_chars p s'
  end.

(** The text without its commas. *)
Fixpoint remove_commas (s : string) : string :=
  match s with
  | EmptyString => EmptyString
  | String c s' =>
      if Ascii.eqb c ","%char then remove_commas s' else String c (remove_commas s')
  end.

(** The column of the schema that stands for a descriptor of the catalog. *)
Definition mirrors (col_info : ColumnInfo) (col : DatabaseColumn) : Prop :=
  dc_name col = Py.strip (ci_name col_info) /\
  dc_type col = ci_type col_info /\
  dc_nullable col = ci_nullable col_info /\
  dc_default col = ci_default col_info.

(** The schema that [get_table_schema] computes for a name, if any. *)
Definition schema_of (self : PostgreSQLManager) (table_name : string)
    : option TableSchema :=
  match fst (get_table_schema self table_name []) with
  | Ok s => Some s
  | Raise _ => None
  end.

End MoreNotions.

(** * Properties *)

Import postgres_db.
Local Open Scope py_scope.

(** ** The outcome of a computation *)

(** Unfolds the monad operations in the goal and in the hypotheses. *)
Ltac unfold_M :=
  unfold try_except, bind, request, lift, ret, raise in *.

(** Splits on the outcome that a [match] of the goal inspects. *)
Ltac split_outcome :=
  match goal with
  | |- context [match ?o with Ok _ => _ | Raise _ => _ end] =>
      let E := fresh "E" in destruct o eqn:E
  end.

(** ** Python strings *)

Lemma strip_example : Py.strip "  ab c  " = "ab c".
Proof. reflexivity. Qed.

Lemma rstrip_cons_nonspace (c : ascii) (s : string) :
  Py.isspace c = false -> Py.rstrip (String c s) = String c (Py.rstrip s).
Proof.
  intros Hc. simpl. rewrite Hc. destruct (Py.rstrip s); reflexivity.
Qed.

(** ** The validators *)

Lemma validate_table_name_blank (table_name : string) :
  Py.strip table_name = "" ->
  validate_table_name table_name
  = Raise (ValidationError "TableSchema" "table_name" "Table name cannot be empty").
Proof.
  intros Hb. unfold validate_table_name, Py.falsy. rewrite Hb.
  rewrite (bool_decide_eq_true_2 ("" = "")) by reflexivity.
  rewrite orb_true_r. reflexivity.
Qed.

Lemma validate_table_name_nonblank (table_name : string) :
  Py.strip table_name <> "" ->
  validate_table_name table_name = Ok (Py.strip table_name).
Proof.
  intros Hb. unfold validate_table_name, Py.falsy.
  rewrite (bool_decide_eq_false_2 (Py.strip table_name = "")) by exact Hb.
  destruct (bool_decide (table_name = "")) eqn:He; [|reflexivity].
  apply bool_decide_eq_true_1 in He. subst table_name. now destruct Hb.
Qed.

Lemma validate_name_ok (v name : string) :
  validate_name v = Ok name -> name = Py.strip v.
Proof.
  unfold validate_name. destruct (_ || _); congruence.
Qed.

Lemma validate_name_trimmed (v : string) :
  Py.strip v = v -> v <> "" -> validate_name v = Ok v.
Proof.
  intros Hs Hne. unfold validate_name, Py.falsy. rewrite Hs.
  rewrite (bool_decide_eq_false_2 (v = "")) by exact Hne. reflexivity.
Qed.

(** ** [get_table_schema] *)

Section TableSchemaFacts.

Variable self : PostgreSQLManager.

(** What a returned schema can be: the one of the [except] branch, or the one
    assembled from the four answers of the catalog. *)
Lemma get_table_schema_inv (table_name : string) (log log' : list Call)
    (s : TableSchema) :
  get_table_schema self table_name log = (Ok s, log') ->
  Py.strip table_name <> "" /\
  (s = empty_schema table_name \/
   exists columns_info columns pk_constraint fk_info indexes_info,
     get_columns (engine self) table_name = Ok columns_info /\
     map_outcome column_of columns_info = Ok columns /\
     get_pk_constraint (engine self) table_name = Ok pk_constraint /\
     get_foreign_keys (engine self) table_name = Ok fk_info /\
     get_indexes (engine self) table_name = Ok indexes_info /\
     s = {| ts_table_name := Py.strip table_name;
            ts_columns := map (mark_primary_key (default [] pk_constraint)) columns;
            ts_primary_keys := default [] pk_constraint;
            ts_foreign_keys := map foreign_key_of fk_info;
            ts_indexes := map index_of indexes_info;
            ts_row_count := None |}).
Proof.
  intros Hrun.
  destruct (decide (Py.strip table_name = "")) as [Hb|Hb].
  - exfalso. revert Hrun.
    unfold get_table_schema, get_table_schema_try, new_TableSchema.
    rewrite (validate_table_name_blank _ Hb). unfold_M.
    repeat (split_outcome; try discriminate).
  - split; [exact Hb|]. revert Hrun.
    unfold get_table_schema, get_table_schema_try, new_TableSchema.
    rewrite (validate_table_name_nonblank _ Hb). unfold_M.
    destruct (inspect (engine self));
      [|intros [= <- _]; left; reflexivity].
    destruct (get_columns (engine self) table_name) as [columns_info|];
      [|intros [= <- _]; left; reflexivity].
    destruct (map_outcome column_of columns_info) as [columns|] eqn:Hcols;
      [|intros [= <- _]; left; reflexivity].
    destruct (get_pk_constraint (engine self) table_name) as [pk|];
      [|intros [= <- _]; left; reflexivity].
    destruct (get_foreign_keys (engine self) table_name) as [fk_info|];
      [|intros [= <- _]; left; reflexivity].
    destruct (get_indexes (engine self) table_name) as [indexes_info|];
      [|intros [= <- _]; left; reflexivity].
    intros [= <- _]. right.
    exists columns_info, columns, pk, fk_info, indexes_info. auto 10.
Qed.

(** A table name that is not blank always gets a schema. *)
Lemma get_table_schema_returns (table_name : string) (log : list Call) :
  Py.strip table_name <> "" ->
  exists s log', get_table_schema self table_name log = (Ok s, log').
Proof.
  intros Hb.
  unfold get_table_schema, get_table_schema_try, new_TableSchema.
  rewrite (validate_table_name_nonblank _ Hb). unfold_M.
  repeat split_outcome; eauto.
Qed.

(** A blank table name never gets one: the constructor of the [except]
    branch raises as well. *)
Lemma get_table_schema_blank (table_name : string) (log : list Call) :
  Py.strip table_name = "" ->
  exists log',
    get_table_schema self table_name log
    = (Raise (ValidationError "TableSchema" "table_name"
                "Table name cannot be empty"), log').
Proof.
  intros Hb.
  unfold get_table_schema, get_table_schema_try, new_TableSchema.
  rewrite (validate_table_name_blank _ Hb). unfold_M.
  repeat split_outcome; eauto.
Qed.

Lemma get_table_schema_fetch_fails (table_name : string) (log : list Call) :
  fetch_fails self table_name = true ->
  Py.strip table_name <> "" ->
  exists log',
    get_table_schema self table_name log = (Ok (empty_schema table_name), log').
Proof.
  intros Hf Hb. revert Hf.
  unfold fetch_fails, get_table_schema, get_table_schema_try, new_TableSchema.
  rewrite (validate_table_name_nonblank _ Hb). unfold_M.
  destruct (inspect (engine self)); simpl; [|eauto].
  destruct (get_columns (engine self) table_name); simpl; [|eauto].
  destruct (map_outcome column_of _); [|eauto].
  destruct (get_pk_constraint (engine self) table_name); simpl; [|eauto].
  destruct (get_foreign_keys (engine self) table_name); simpl; [|eauto].
  destruct (get_indexes (engine self) table_name); simpl; [|eauto].
  discriminate.
Qed.

End TableSchemaFacts.

(** ** The table-name validator and graceful degradation *)

(** C9. A table name that is empty or made of whitespace only makes
    [get_table_schema] raise the validation error to its caller, whatever the
    engine answers: the [try] block ends in the validating constructor and
    the [except] branch calls it again. *)
Theorem C9_blank_table_name_raises (self : PostgreSQLManager)
    (table_name : string) (log : list Call) :
  Py.strip table_name = "" ->
  exists log',
    get_table_schema self table_name log
    = (Raise (ValidationError "TableSchema" "table_name"
                "Table name cannot be empty"), log').
Proof. apply get_table_schema_blank. Qed.

Lemma C9_blank_table_name_raises_witness :
  Py.strip "   " = "" /\
  exists log',
    get_table_schema Fixtures.shop "   " []
    = (Raise (ValidationError "TableSchema" "table_name"
                "Table name cannot be empty"), log').
Proof.
  split; [reflexivity|].
  apply (C9_blank_table_name_raises Fixtures.shop "   " []). reflexivity.
Defined.

(** C5, as stated, fails on the empty table name: the catalog fetch fails and
    [get_table_schema] raises instead of returning a schema. *)
Lemma C5_counterexample :
  fetch_fails Fixtures.down "" = true /\
  ~ exists s log',
      get_table_schema Fixtures.down "" [] = (Ok s, log') /\
      ts_table_name s = "" /\ ts_columns s = [].
Proof.
  split; [reflexivity|].
  intros (s & log' & Hrun & _). vm_compute in Hrun. discriminate.
Qed.

(** C5, amended. When a request of the introspection fails and the table
    name is not blank, [get_table_schema] returns, without raising, the schema
    that holds the trimmed table name and no column (and no key, no index). *)
Theorem C5_failed_fetch_gives_empty_schema (self : PostgreSQLManager)
    (table_name : string) (log : list Call) :
  fetch_fails self table_name = true ->
  Py.strip table_name <> "" ->
  exists s log',
    get_table_schema self table_name log = (Ok s, log') /\
    ts_table_name s = Py.strip table_name /\
    ts_columns s = [] /\
    s = empty_schema table_name.
Proof.
  intros Hf Hb.
  destruct (get_table_schema_fetch_fails self table_name log Hf Hb) as [log' H].
  exists (empty_schema table_name), log'. auto.
Qed.

Lemma C5_failed_fetch_gives_empty_schema_witness :
  exists s log',
    get_table_schema Fixtures.shop "nonexistent_table" [] = (Ok s, log') /\
    ts_table_name s = "nonexistent_table" /\
    ts_columns s = [] /\
    s = empty_schema "nonexistent_table".
Proof.
  apply (C5_failed_fetch_gives_empty_schema Fixtures.shop "nonexistent_table" []).
  - reflexivity.
  - vm_compute. discriminate.
Defined.

(** ** [list_tables] *)

(** C6, as stated, fails: when the catalog query fails, [list_tables] does
    not raise; it returns the empty list. *)
Lemma C6_counterexample :
  is_raise (get_table_names (engine Fixtures.down)) = true /\
  ~ exists e log', list_tables Fixtures.down [] = (Raise e, log').
Proof.
  split; [reflexivity|].
  intros (e & log' & Hrun). vm_compute in Hrun. discriminate.
Qed.

(** C6, amended. When the catalog query under [list_tables] fails,
    [list_tables] catches the failure itself and returns the empty list, so
    its callers see zero tables: [get_database_schema] returns a schema
    without tables and a count of 0, and the tool reports that no table was
    found. *)
Theorem C6_list_tables_recovers (self : PostgreSQLManager) (log : list Call) :
  is_raise (inspect (engine self))
  || is_raise (get_table_names (engine self)) = true ->
  exists log',
    list_tables self log = (Ok [], log') /\
    get_database_schema self log
    = (Ok {| ds_database_name := database (config self);
             ds_tables := ∅; ds_total_tables := 0 |}, log') /\
    mcp.list_tables self log = (Ok "No tables found in the database", log').
Proof.
  intros Hf.
  assert (exists log', list_tables self log = (Ok [], log')) as [log' Hl].
  { revert Hf. unfold list_tables. unfold_M.
    destruct (inspect (engine self)); simpl; [|eauto].
    destruct (get_table_names (engine self)); simpl; [discriminate|eauto]. }
  exists log'. split; [exact Hl|]. split.
  - unfold get_database_schema, bind. rewrite Hl. reflexivity.
  - unfold mcp.list_tables, try_except, bind. rewrite Hl. reflexivity.
Qed.

Lemma C6_list_tables_recovers_witness :
  exists log',
    list_tables Fixtures.down [] = (Ok [], log') /\
    get_database_schema Fixtures.down []
    = (Ok {| ds_database_name := "shop"; ds_tables := ∅;
             ds_total_tables := 0 |}, log') /\
    mcp.list_tables Fixtures.down [] = (Ok "No tables found in the database", log').
Proof.
  apply (C6_list_tables_recovers Fixtures.down []). reflexivity.
Defined.

(** ** The safety gate of [execute_select_query] *)

(** C1. A statement that, trimmed and upper-cased, does not start with
    [SELECT] is answered with the failed response that carries the fixed
    policy message, and the log of engine requests is left as it was: nothing
    is sent to the engine. *)
Theorem C1_non_select_rejected (db_manager : PostgreSQLManager)
    (sql_query : string) (log : list Call) :
  Py.startswith (Py.upper (Py.strip sql_query)) "SELECT" = false ->
  mcp.execute_select_query db_manager sql_query log
  = (Ok (mcp.format_QueryExecutionResponse
           {| mcp.qer_success := false; mcp.qer_query := sql_query;
              mcp.qer_result := None;
              mcp.qer_error :=
                Some "Only SELECT queries are allowed for security reasons" |}),
     log)
  /\ mcp.format_QueryExecutionResponse (mcp.policy_violation sql_query)
     = "Query failed: Only SELECT queries are allowed for security reasons"
       +:+ Py.nl +:+ "Query: " +:+ sql_query.
Proof.
  intros Hgate. split; [|reflexivity].
  unfold mcp.execute_select_query, try_except. rewrite Hgate. reflexivity.
Qed.

Lemma C1_non_select_rejected_witness :
  mcp.execute_select_query Fixtures.shop "DROP TABLE users" []
  = (Ok (mcp.format_QueryExecutionResponse
           {| mcp.qer_success := false; mcp.qer_query := "DROP TABLE users";
              mcp.qer_result := None;
              mcp.qer_error :=
                Some "Only SELECT queries are allowed for security reasons" |}),
     [])
  /\ mcp.format_QueryExecutionResponse (mcp.policy_violation "DROP TABLE users")
     = "Query failed: Only SELECT queries are allowed for security reasons"
       +:+ Py.nl +:+ "Query: " +:+ "DROP TABLE users".
Proof.
  apply (C1_non_select_rejected Fixtures.shop "DROP TABLE users" []).
  reflexivity.
Defined.

(** ** [get_database_schema] *)

Section DatabaseSchemaFacts.

Variable self : PostgreSQLManager.

(** [list_tables] never raises; it returns the names of the catalog, or the
    empty list. *)
Lemma list_tables_inv (log : list Call) :
  exists names log',
    list_tables self log = (Ok names, log') /\
    (names = [] \/ get_table_names (engine self) = Ok names).
Proof.
  unfold list_tables. unfold_M.
  destruct (inspect (engine self)); [|eauto 6].
  destruct (get_table_names (engine self)); eauto 6.
Qed.

(** The keys of the mapping after the loop: those it had, and the names
    gone through. *)
Lemma get_database_schema_loop_dom (tables : list string) :
  forall (acc m : gmap string TableSchema) (log log' : list Call),
    get_database_schema_loop self tables acc log = (Ok m, log') ->
    dom m = dom acc ∪ list_to_set tables.
Proof.
  induction tables as [|table rest IH]; intros acc m log log' Hrun.
  - simpl in Hrun. injection Hrun as <- _.
    rewrite list_to_set_nil. symmetry. apply (right_id_L ∅ (∪)).
  - simpl in Hrun. unfold bind in Hrun.
    destruct (get_table_schema self table log) as [[s|e] log1]; [|discriminate].
    apply IH in Hrun. rewrite Hrun, dom_insert_L, list_to_set_cons.
    rewrite (comm_L (∪) {[table]} (dom acc)). symmetry. apply (assoc_L (∪)).
Qed.

(** The loop goes through when no name is blank. *)
Lemma get_database_schema_loop_returns (tables : list string) :
  Forall (fun table => Py.strip table <> "") tables ->
  forall (acc : gmap string TableSchema) (log : list Call),
    exists m log', get_database_schema_loop self tables acc log = (Ok m, log').
Proof.
  induction 1 as [|table rest Hb _ IH]; intros acc log.
  - simpl. unfold ret. eauto.
  - simpl. unfold bind.
    destruct (get_table_schema_returns self table log Hb) as (s & log1 & ->).
    apply IH.
Qed.

Lemma get_database_schema_inv (log log' : list Call) (schema : DatabaseSchema) :
  get_database_schema self log = (Ok schema, log') ->
  exists names,
    (names = [] \/ get_table_names (engine self) = Ok names) /\
    ds_total_tables schema = Z.of_nat (length names) /\
    dom (ds_tables schema) = list_to_set names.
Proof.
  unfold get_database_schema, bind.
  destruct (list_tables_inv log) as (names & log1 & -> & Hnames).
  destruct (get_database_schema_loop self names ∅ log1) as [[m|e] log2] eqn:Hloop;
    [|discriminate].
  intros [= <- _]. exists names. simpl. split; [exact Hnames|]. split; [reflexivity|].
  apply get_database_schema_loop_dom in Hloop.
  rewrite Hloop, dom_empty_L. apply (left_id_L ∅ (∪)).
Qed.

(** A set built from a list is no larger than the list. *)
Lemma size_list_to_set_le (names : list string) :
  (size (list_to_set names : gset string) <= length names)%nat.
Proof.
  induction names as [|name rest IH].
  - rewrite list_to_set_nil, size_empty. reflexivity.
  - rewrite list_to_set_cons, length_cons, size_union_alt, size_singleton.
    pose proof (subseteq_size (list_to_set rest ∖ {[name]})
                  (list_to_set rest : gset string)) as Hle.
    assert (list_to_set rest ∖ {[name]} ⊆ (list_to_set rest : gset string))
      as Hsub by apply subseteq_difference_l, reflexivity.
    apply Hle in Hsub. lia.
Qed.

(** The count is never below the number of entries. *)
Lemma total_tables_ge_size (log log' : list Call) (schema : DatabaseSchema) :
  get_database_schema self log = (Ok schema, log') ->
  Z.of_nat (size (ds_tables schema)) <= ds_total_tables schema.
Proof.
  intros Hrun. apply get_database_schema_inv in Hrun as (names & _ & -> & Hdom).
  rewrite <- size_dom, Hdom. apply inj_le, size_list_to_set_le.
Qed.

(** The snapshot is built whenever the catalog lists no blank name. *)
Lemma get_database_schema_returns (log : list Call) :
  (forall names, get_table_names (engine self) = Ok names ->
                 Forall (fun table => Py.strip table <> "") names) ->
  exists schema log', get_database_schema self log = (Ok schema, log').
Proof.
  intros Hnb. unfold get_database_schema, bind.
  destruct (list_tables_inv log) as (names & log1 & -> & Hnames).
  assert (Forall (fun table => Py.strip table <> "") names) as Hall.
  { destruct Hnames as [->|Hn]; [constructor|exact (Hnb _ Hn)]. }
  destruct (get_database_schema_loop_returns names Hall ∅ log1) as (m & log2 & ->).
  unfold ret. eauto.
Qed.

End DatabaseSchemaFacts.

(** C3, as stated, fails on a list with a repeated name: the count is the
    length of the list, the mapping has one entry per distinct name. *)
Lemma C3_counterexample :
  exists schema log',
    get_database_schema (Fixtures.listing ["users"; "users"]) []
    = (Ok schema, log') /\
    ds_total_tables schema = 2 /\
    size (ds_tables schema) = 1%nat /\
    ds_total_tables schema <> Z.of_nat (size (ds_tables schema)).
Proof.
  eexists. eexists. split; [vm_compute; reflexivity|].
  repeat split; vm_compute; congruence.
Qed.

(** C3, amended. For every result of [get_database_schema] over a list of
    pairwise distinct table names, as a catalog reports them, [total_tables]
    is the number of entries of the [tables] mapping. *)
Theorem C3_total_tables_distinct_names (self : PostgreSQLManager)
    (log log' : list Call) (schema : DatabaseSchema) :
  get_database_schema self log = (Ok schema, log') ->
  (forall names, get_table_names (engine self) = Ok names -> NoDup names) ->
  ds_total_tables schema = Z.of_nat (size (ds_tables schema)).
Proof.
  intros Hrun Hnodup.
  apply get_database_schema_inv in Hrun as (names & Hnames & -> & Hdom).
  rewrite <- size_dom, Hdom. f_equal. symmetry. apply size_list_to_set.
  destruct Hnames as [->|Hn]; [constructor|exact (Hnodup _ Hn)].
Qed.

Lemma C3_total_tables_distinct_names_witness :
  exists schema log',
    get_database_schema Fixtures.shop [] = (Ok schema, log') /\
    ds_total_tables schema = Z.of_nat (size (ds_tables schema)).
Proof.
  eexists. eexists. split; [vm_compute; reflexivity|].
  eapply (C3_total_tables_distinct_names Fixtures.shop []).
  - vm_compute. reflexivity.
  - intros names [= <-]. apply (bool_decide_unpack _). vm_compute. exact I.
Defined.

(** ** Primary keys and foreign keys of a table schema *)

Lemma Forall2_In_l {A B} (P : A -> B -> Prop) (l : list A) (k : list B) (x : A) :
  Forall2 P l k -> In x l -> exists y, In y k /\ P x y.
Proof.
  induction 1 as [|a b l k Hab _ IH]; intros Hin; [destruct Hin|].
  destruct Hin as [->|Hin]; [exists b; simpl; auto|].
  destruct (IH Hin) as (y & Hy & Hp). exists y. simpl. auto.
Qed.

Lemma Forall2_In_r {A B} (P : A -> B -> Prop) (l : list A) (k : list B) (y : B) :
  Forall2 P l k -> In y k -> exists x, In x l /\ P x y.
Proof.
  induction 1 as [|a b l k Hab _ IH]; intros Hin; [destruct Hin|].
  destruct Hin as [->|Hin]; [exists a; simpl; auto|].
  destruct (IH Hin) as (x & Hx & Hp). exists x. simpl. auto.
Qed.

Lemma primary_key_columns_In (s : TableSchema) (x : string) :
  In x (primary_key_columns s) <->
  exists col, In col (ts_columns s) /\ dc_primary_key col = true /\ dc_name col = x.
Proof.
  unfold primary_key_columns. rewrite in_map_iff. split.
  - intros (col & Hname & Hin). apply filter_In in Hin as [Hin Hpk]. eauto.
  - intros (col & Hin & Hpk & Hname). exists col. split; [exact Hname|].
    apply filter_In. auto.
Qed.

(** A column built from a descriptor carries the trimmed name and no
    primary-key flag. *)
Lemma column_of_ok (col_info : ColumnInfo) (col : DatabaseColumn) :
  column_of col_info = Ok col ->
  dc_name col = Py.strip (ci_name col_info) /\ dc_primary_key col = false.
Proof.
  unfold column_of, new_DatabaseColumn.
  destruct (validate_name (ci_name col_info)) as [name|] eqn:Hv; [|discriminate].
  intros [= <-]. simpl. split; [|reflexivity]. exact (validate_name_ok _ _ Hv).
Qed.

Lemma map_outcome_column_of (columns_info : list ColumnInfo) :
  forall columns,
    map_outcome column_of columns_info = Ok columns ->
    Forall2 (fun col_info col =>
               dc_name col = Py.strip (ci_name col_info)
               /\ dc_primary_key col = false) columns_info columns.
Proof.
  induction columns_info as [|col_info rest IH]; intros columns; simpl.
  - intros [= <-]. constructor.
  - destruct (column_of col_info) as [col|] eqn:Hcol; [|discriminate].
    destruct (map_outcome column_of rest) as [cols|]; [|discriminate].
    intros [= <-]. constructor; [exact (column_of_ok _ _ Hcol)|]. now apply IH.
Qed.

Lemma mark_primary_key_name (primary_keys : list string) (col : DatabaseColumn) :
  dc_name (mark_primary_key primary_keys col) = dc_name col.
Proof. unfold mark_primary_key. now destruct (bool_decide _). Qed.

Lemma mark_primary_key_flag (primary_keys : list string) (col : DatabaseColumn) :
  dc_primary_key col = false ->
  dc_primary_key (mark_primary_key primary_keys col) = true <->
  In (dc_name col) primary_keys.
Proof.
  intros Hno. unfold mark_primary_key.
  destruct (bool_decide (dc_name col ∈ primary_keys)) eqn:Hd.
  - apply bool_decide_eq_true_1, list_elem_of_In in Hd. simpl. tauto.
  - apply bool_decide_eq_false_1 in Hd. rewrite list_elem_of_In in Hd.
    rewrite Hno. split; [discriminate|tauto].
Qed.

Section KeyFacts.

Variable self : PostgreSQLManager.
Variables (table_name : string) (log log' : list Call) (s : TableSchema).
Hypothesis Hrun : get_table_schema self table_name log = (Ok s, log').

(** Every flagged column is named in the primary-key list. *)
Lemma flagged_in_primary_keys (x : string) :
  In x (primary_key_columns s) -> In x (ts_primary_keys s).
Proof.
  rewrite primary_key_columns_In. intros (col' & Hin & Hpk & <-).
  destruct (get_table_schema_inv _ _ _ _ _ Hrun) as [_ [->|Hs]];
    [destruct Hin|].
  destruct Hs as (infos & cols & pk & fks & idxs & _ & Hcols & _ & _ & _ & ->).
  simpl in *. apply in_map_iff in Hin as (col & <- & Hin).
  apply map_outcome_column_of in Hcols.
  assert (dc_primary_key col = false) as Hno.
  { destruct (Forall2_In_r _ _ _ _ Hcols Hin) as (info & _ & _ & H). exact H. }
  rewrite mark_primary_key_name. now apply (mark_primary_key_flag _ _ Hno).
Qed.

(** Conversely, when the catalog reports column names without surrounding
    whitespace and a primary key made of columns of the table, every name of
    the primary-key list is the name of a flagged column. *)
Lemma primary_keys_flagged (x : string) :
  (forall columns_info,
      get_columns (engine self) table_name = Ok columns_info ->
      Forall (fun col_info => Py.strip (ci_name col_info) = ci_name col_info)
        columns_info) ->
  (forall columns_info pk,
      get_columns (engine self) table_name = Ok columns_info ->
      get_pk_constraint (engine self) table_name = Ok (Some pk) ->
      incl pk (map ci_name columns_info)) ->
  In x (ts_primary_keys s) -> In x (primary_key_columns s).
Proof.
  intros Htrim Hincl Hx. apply primary_key_columns_In.
  destruct (get_table_schema_inv _ _ _ _ _ Hrun) as [_ [->|Hs]];
    [destruct Hx|].
  destruct Hs as (infos & cols & pk & fks & idxs & Hc & Hcols & Hpk & _ & _ & ->).
  simpl in *. destruct pk as [pk|]; [|destruct Hx]. simpl in *.
  specialize (Htrim _ Hc). specialize (Hincl _ _ Hc Hpk).
  pose proof Hx as Hpkx.
  apply Hincl, in_map_iff in Hx as (info & <- & Hinfo).
  apply map_outcome_column_of in Hcols.
  destruct (Forall2_In_l _ _ _ _ Hcols Hinfo) as (col & Hcol & Hname & Hno).
  rewrite Forall_forall in Htrim.
  rewrite (Htrim _ (proj2 (list_elem_of_In _ _) Hinfo)) in Hname.
  exists (mark_primary_key pk col). rewrite mark_primary_key_name.
  split; [|split; [|exact Hname]].
  - apply in_map, Hcol.
  - apply (mark_primary_key_flag _ _ Hno). rewrite Hname. exact Hpkx.
Qed.


End KeyFacts.

(** C4. The table [t] has one column, named with a leading space, which is
    its primary key. The schema returned names it in [primary_keys], and the
    column, stored under its trimmed name, is not flagged: the two sets
    differ. *)
Theorem C4_spaced_key_column_not_flagged :
  exists s log',
    get_table_schema Fixtures.spaced "t" [] = (Ok s, log') /\
    map dc_name (ts_columns s) = ["id"] /\
    ts_primary_keys s = [" id"] /\
    primary_key_columns s = [].
Proof.
  eexists. eexists. split; [vm_compute; reflexivity|].
  repeat split; reflexivity.
Qed.



(** ** Statements sent to the engine *)

Section QueryFacts.

Variable self : PostgreSQLManager.

(** [execute_query] never raises and sends exactly its argument. *)
Lemma execute_query_run (query : string) (log : list Call) :
  execute_query self query log
  = (Ok match execute (engine self) query with
        | Ok (ReturnsRows columns rows) =>
            {| qr_success := true;
               qr_data := Some (map (fun row => Py.dict_zip columns row) rows);
               qr_error := None; qr_rows_affected := None;
               qr_execution_time := Some (elapsed (engine self) query);
               qr_columns := Some columns |}
        | Ok (NoRows rowcount) =>
            {| qr_success := true; qr_data := None; qr_error := None;
               qr_rows_affected := Some rowcount;
               qr_execution_time := Some (elapsed (engine self) query);
               qr_columns := None |}
        | Raise e =>
            {| qr_success := false; qr_data := None;
               qr_error :=
                 Some (match e with
                       | SQLAlchemyError _ => "SQL Error: "
                       | _ => "Unexpected error: "
                       end +:+ str_exn e);
               qr_rows_affected := None;
               qr_execution_time := Some (elapsed (engine self) query);
               qr_columns := None |}
        end,
     (log ++ [CExecute query])%list).
Proof.
  unfold execute_query. unfold_M.
  destruct (execute (engine self) query) as [[columns rows|rowcount]|e];
    reflexivity.
Qed.

(** [get_sample_data] never raises, sends one statement, and hands over the
    rows of the engine, one record per row. *)
Lemma get_sample_data_run (table_name : string) (limit : Z) (log : list Call) :
  exists sd,
    postgres_db.get_sample_data self table_name limit log
    = (Ok sd, (log ++ [CExecute (sample_query table_name limit)])%list) /\
    sd_table_name sd = table_name /\
    length (sd_rows sd) = length (engine_rows self (sample_query table_name limit)).
Proof.
  unfold postgres_db.get_sample_data, try_except, bind, engine_rows.
  fold (sample_query table_name limit).
  rewrite execute_query_run.
  destruct (execute (engine self) (sample_query table_name limit))
    as [[columns [|row rows]|rowcount]|e]; simpl; unfold ret;
    eexists; (split; [reflexivity|]); split; try reflexivity.
  simpl. now rewrite length_map.
Qed.

(** The tool clamps the limit, then does what the manager does. *)
Lemma mcp_get_sample_data_run (table_name : string) (limit : Z) (log : list Call) :
  exists sd,
    postgres_db.get_sample_data self table_name (Z.min limit 20) log
    = (Ok sd, (log ++ [CExecute (sample_query table_name (Z.min limit 20))])%list)
    /\ mcp.get_sample_data self table_name limit log
       = (Ok (mcp.format_SampleDataResponse
                {| mcp.sdr_success := true; mcp.sdr_table_name := table_name;
                   mcp.sdr_sample_data := Some sd; mcp.sdr_error := None |}),
          (log ++ [CExecute (sample_query table_name (Z.min limit 20))])%list).
Proof.
  destruct (get_sample_data_run table_name (Z.min limit 20) log)
    as (sd & Hrun & _).
  exists sd. split; [exact Hrun|].
  unfold mcp.get_sample_data, try_except, bind. rewrite Hrun. reflexivity.
Qed.

(** When the engine returns no more rows than the clamped limit for the
    statement sent, the sample has no more rows than [min(limit, 20)]. *)
Lemma sample_within_limit (table_name : string) (limit : Z) (log log' : list Call)
    (sd : SampleData) :
  0 <= limit ->
  (length (engine_rows self (sample_query table_name (Z.min limit 20)))
   <= Z.to_nat (Z.min limit 20))%nat ->
  postgres_db.get_sample_data self table_name (Z.min limit 20) log = (Ok sd, log') ->
  Z.of_nat (length (sd_rows sd)) <= Z.min limit 20.
Proof.
  intros Hlimit Hengine Hrun.
  destruct (get_sample_data_run table_name (Z.min limit 20) log)
    as (sd' & Hrun' & _ & Hlen).
  rewrite Hrun in Hrun'. injection Hrun' as <- _. lia.
Qed.

End QueryFacts.

(** A statement that starts with [SELECT] passes the safety check of
    [execute_select_query]. *)
Lemma select_prefix_passes_gate (rest : string) :
  Py.startswith (Py.upper (Py.strip ("SELECT" +:+ rest))) "SELECT" = true.
Proof.
  change ("SELECT" +:+ rest)
    with (String "S" (String "E" (String "L" (String "E" (String "C"
            (String "T" rest)))))).
  unfold Py.strip. simpl Py.lstrip.
  rewrite !rstrip_cons_nonspace by reflexivity.
  unfold Py.startswith. simpl. now destruct (Py.upper (Py.rstrip rest)).
Qed.

(** C10. [get_sample_data] sends to the engine exactly the statement
    [SELECT * FROM ], the table name as given, [ LIMIT ] and the decimal
    limit; the tool sends it with the clamped limit. Whatever text the table
    name holds, the statement starts with [SELECT], so the prefix check of the
    query gate accepts it. *)
Theorem C10_sample_statement_verbatim (self : PostgreSQLManager)
    (table_name : string) (limit : Z) (log : list Call) :
  (exists sd,
      postgres_db.get_sample_data self table_name limit log
      = (Ok sd,
         (log ++ [CExecute ("SELECT * FROM " +:+ table_name +:+ " LIMIT "
                            +:+ Py.str_int limit)])%list))
  /\ (exists out,
        mcp.get_sample_data self table_name limit log
        = (Ok out,
           (log ++ [CExecute ("SELECT * FROM " +:+ table_name +:+ " LIMIT "
                              +:+ Py.str_int (Z.min limit 20))])%list))
  /\ Py.startswith
       (Py.upper (Py.strip ("SELECT * FROM " +:+ table_name +:+ " LIMIT "
                            +:+ Py.str_int limit))) "SELECT" = true.
Proof.
  split; [|split].
  - destruct (get_sample_data_run self table_name limit log) as (sd & Hrun & _).
    exists sd. exact Hrun.
  - destruct (mcp_get_sample_data_run self table_name limit log)
      as (sd & _ & Hrun).
    eexists. exact Hrun.
  - apply (select_prefix_passes_gate
             (" * FROM " +:+ table_name +:+ " LIMIT " +:+ Py.str_int limit)).
Qed.

(** On a plain table name the engine applies the limit sent: a request for
    1000 rows of [orders] yields 20 of its 30 rows. *)
Lemma sample_of_plain_table_is_clamped :
  exists sd,
    postgres_db.get_sample_data Fixtures.shop "orders" (Z.min 1000 20) []
    = (Ok sd, [CExecute "SELECT * FROM orders LIMIT 20"]) /\
    length (sd_rows sd) = 20%nat.
Proof.
  eexists. split; [vm_compute; reflexivity|]. reflexivity.
Qed.

(** C2. The table name [orders LIMIT 25 --] carries a clause and opens a
    comment. The limit 1000 is clamped to 20 and the statement sent ends in
    [LIMIT 20], inside the comment; the engine returns 25 rows and the sample
    holds all of them. *)
Theorem C2_sample_exceeds_clamped_limit :
  exists sd log',
    postgres_db.get_sample_data Fixtures.shop "orders LIMIT 25 --"
      (Z.min 1000 20) [] = (Ok sd, log') /\
    log' = [CExecute "SELECT * FROM orders LIMIT 25 -- LIMIT 20"] /\
    length (sd_rows sd) = 25%nat /\
    Z.min 1000 20 < Z.of_nat (length (sd_rows sd)) /\
    sd_total_rows_sampled sd = 25 /\
    mcp.get_sample_data Fixtures.shop "orders LIMIT 25 --" 1000 []
    = (Ok (mcp.format_SampleDataResponse
             {| mcp.sdr_success := true;
                mcp.sdr_table_name := "orders LIMIT 25 --";
                mcp.sdr_sample_data := Some sd; mcp.sdr_error := None |}),
       log').
Proof.
  eexists. eexists. split; [vm_compute; reflexivity|].
  repeat split; vm_compute; reflexivity.
Qed.

(** ** [get_table_statistics] *)

Section StatisticsFacts.

Variable db_manager : PostgreSQLManager.

(** The row-count step always returns: whatever happens to the count, the
    statistics go on. *)
Lemma row_count_lines_returns (table_name response : string) (log : list Call) :
  exists response',
    mcp.row_count_lines db_manager table_name response log
    = (Ok response', (log ++ [CExecute (count_query table_name)])%list).
Proof.
  unfold mcp.row_count_lines, try_except, bind.
  fold (count_query table_name). rewrite execute_query_run.
  destruct (execute (engine db_manager) (count_query table_name))
    as [[columns [|row rows]|rowcount]|e]; simpl; unfold ret; eauto.
  destruct (Py.dict_get "row_count" (Py.dict_zip columns row)) as [v|];
    [|unfold raise; eauto].
  unfold lift. destruct (mcp.format_comma v); eauto.
Qed.

(** When the engine refuses the count statement, the step adds nothing to
    the response: [execute_query] has turned the failure into a result, the
    [except] branch is not taken. *)
Lemma row_count_lines_count_fails (table_name response : string)
    (log : list Call) :
  is_raise (execute (engine db_manager) (count_query table_name)) = true ->
  mcp.row_count_lines db_manager table_name response log
  = (Ok response, (log ++ [CExecute (count_query table_name)])%list).
Proof.
  intros Hf. unfold mcp.row_count_lines, try_except, bind.
  fold (count_query table_name). rewrite execute_query_run.
  destruct (execute (engine db_manager) (count_query table_name));
    [discriminate|reflexivity].
Qed.

(** With at least one column, the tool returns the statistics. *)
Lemma get_table_statistics_returns (table_name : string) (log log1 : list Call)
    (schema : TableSchema) :
  get_table_schema db_manager table_name log = (Ok schema, log1) ->
  ts_columns schema <> [] ->
  exists response,
    mcp.get_table_statistics db_manager table_name log
    = (Ok (response +:+ "Column Details:" +:+ Py.nl
           +:+ mcp.column_details (ts_columns schema)),
       (log1 ++ [CExecute (count_query table_name)])%list).
Proof.
  intros Hschema Hcols.
  unfold mcp.get_table_statistics, try_except. unfold bind at 1.
  rewrite Hschema.
  destruct (ts_columns schema) as [|col cols] eqn:Hc; [now destruct Hcols|].
  unfold bind.
  match goal with
  | |- context [mcp.row_count_lines db_manager table_name ?r log1] =>
      destruct (row_count_lines_returns table_name r log1) as (response' & ->)
  end.
  exists response'. reflexivity.
Qed.

(** Without columns, the tool stops at the schema: it answers with the fixed
    sentence and sends no statement. *)
Lemma get_table_statistics_no_columns (table_name : string)
    (log log1 : list Call) (schema : TableSchema) :
  get_table_schema db_manager table_name log = (Ok schema, log1) ->
  ts_columns schema = [] ->
  mcp.get_table_statistics db_manager table_name log
  = (Ok ("Table '" +:+ table_name +:+ "' not found or has no columns"), log1).
Proof.
  intros Hschema Hcols.
  unfold mcp.get_table_statistics, try_except. unfold bind at 1.
  rewrite Hschema, Hcols. reflexivity.
Qed.

(** When the schema cannot be built at all, the tool reports the error. *)
Lemma get_table_statistics_schema_raises (table_name : string)
    (log log1 : list Call) (e : exn) :
  get_table_schema db_manager table_name log = (Raise e, log1) ->
  mcp.get_table_statistics db_manager table_name log
  = (Ok ("Error getting statistics for table '" +:+ table_name +:+ "': "
         +:+ str_exn e), log1).
Proof.
  intros Hschema.
  unfold mcp.get_table_statistics, try_except. unfold bind at 1.
  rewrite Hschema. reflexivity.
Qed.

End StatisticsFacts.

(** C7. The role connected to the shop database may not read the rows of
    [users]: the schema of the table has two columns and the count statement
    fails. The tool returns the statistics, and their text has no line about
    the row count: the words "unable to determine" are not in it. *)
Theorem C7_failed_count_is_not_reported :
  is_raise (execute (engine Fixtures.shop) (count_query "users")) = true /\
  exists out log',
    mcp.get_table_statistics Fixtures.shop "users" [] = (Ok out, log') /\
    last log' = Some (CExecute "SELECT COUNT(*) as row_count FROM users") /\
    Py.contains "Column Count: 2" out = true /\
    Py.contains "Column Details:" out = true /\
    Py.contains "row" (Py.lower out) = false /\
    Py.contains "unable to determine" (Py.lower out) = false.
Proof.
  split; [reflexivity|].
  eexists. eexists. split; [vm_compute; reflexivity|].
  repeat split; vm_compute; reflexivity.
Qed.

(** * Further properties of the code *)

(** ** [execute_query] and the records it builds *)

(** X1. [execute_query] never raises and sends the statement as given, once.
    When the engine fails, the result is a failure without rows, columns or
    count, whose message is [SQL Error: ] and the text of the error for an
    error of SQLAlchemy, [Unexpected error: ] and the text for any other
    exception. *)
Theorem X1_execute_query_captures_failures (self : PostgreSQLManager)
    (query : string) (log : list Call) :
  exists r,
    execute_query self query log = (Ok r, (log ++ [CExecute query])%list) /\
    forall e,
      execute (engine self) query = Raise e ->
      qr_success r = false /\ qr_data r = None /\ qr_columns r = None /\
      qr_rows_affected r = None /\
      qr_error r
      = Some (match e with
              | SQLAlchemyError _ => "SQL Error: "
              | _ => "Unexpected error: "
              end +:+ str_exn e).
Proof.
  eexists. split; [apply execute_query_run|].
  intros e He. rewrite He. simpl. repeat split.
Qed.

(** X2. A successful result carries exactly one of the two payloads: for a
    statement that returns rows, one record per row and the column names,
    and no count; otherwise the count of affected rows, and neither records
    nor column names. *)
Theorem X2_query_result_has_one_payload (self : PostgreSQLManager)
    (query : string) (log log' : list Call) (r : QueryResult) :
  execute_query self query log = (Ok r, log') ->
  qr_success r = true ->
  qr_error r = None /\
  ((exists columns rows,
       execute (engine self) query = Ok (ReturnsRows columns rows) /\
       qr_columns r = Some columns /\ qr_rows_affected r = None /\
       exists data, qr_data r = Some data /\ length data = length rows)
   \/ (exists rowcount,
         execute (engine self) query = Ok (NoRows rowcount) /\
         qr_rows_affected r = Some rowcount /\
         qr_data r = None /\ qr_columns r = None)).
Proof.
  rewrite execute_query_run. intros [= <- _].
  destruct (execute (engine self) query) as [[columns rows|rowcount]|e]; simpl;
    intros Hs; [| |discriminate]; (split; [reflexivity|]).
  - left. exists columns, rows. repeat split.
    eexists. split; [reflexivity|]. apply length_map.
  - right. exists rowcount. auto.
Qed.

Lemma X2_query_result_has_one_payload_witness :
  exists r log',
    execute_query Fixtures.shop "SELECT * FROM orders LIMIT 2" [] = (Ok r, log') /\
    qr_error r = None.
Proof.
  destruct (execute_query Fixtures.shop "SELECT * FROM orders LIMIT 2" [])
    as [[r|e] log'] eqn:Hrun; [|vm_compute in Hrun; discriminate].
  exists r, log'. split; [reflexivity|].
  pose proof (X2_query_result_has_one_payload _ _ _ _ _ Hrun) as H.
  vm_compute in Hrun. injection Hrun as Hr _. subst r.
  exact (proj1 (H eq_refl)).
Defined.

(** A key that the record does not hold is appended. *)
Lemma dict_set_fresh {V} (k : string) (v : V) (d : Py.dict V) :
  ~ In k (map fst d) -> Py.dict_set k v d = (d ++ [(k, v)])%list.
Proof.
  induction d as [|[k' v'] d IH]; simpl; intros Hk; [reflexivity|].
  destruct (String.eqb_spec k k') as [->|Hne]; [tauto|].
  rewrite IH by tauto. reflexivity.
Qed.

Lemma dict_zip_go {V} (keys : list string) :
  forall (vals : list V) (acc : Py.dict V),
    NoDup keys ->
    (forall k, In k keys -> ~ In k (map fst acc)) ->
    fold_left (fun d kv => Py.dict_set (fst kv) (snd kv) d) (combine keys vals) acc
    = (acc ++ combine keys vals)%list.
Proof.
  induction keys as [|k keys IH]; intros vals acc Hnd Hfresh; simpl.
  - now rewrite app_nil_r.
  - destruct vals as [|v vals]; simpl; [now rewrite app_nil_r|].
    apply NoDup_cons in Hnd as [Hk Hnd].
    rewrite dict_set_fresh by (apply Hfresh; now left).
    rewrite IH; [now rewrite <- app_assoc|exact Hnd|].
    intros k' Hk'. rewrite map_app, in_app_iff. simpl.
    intros [Hin|[->|[]]].
    + exact (Hfresh k' (or_intror Hk') Hin).
    + apply Hk. now apply list_elem_of_In.
Qed.

(** X3. When the column names of a result are pairwise distinct, every
    record lists the names with the values of its row, in the order of the
    columns. *)
Theorem X3_records_pair_columns_with_values (self : PostgreSQLManager)
    (query : string) (log log' : list Call) (r : QueryResult)
    (columns : list string) (rows : list (list Py.value)) :
  execute_query self query log = (Ok r, log') ->
  execute (engine self) query = Ok (ReturnsRows columns rows) ->
  NoDup columns ->
  qr_data r = Some (map (fun row => combine columns row) rows).
Proof.
  rewrite execute_query_run. intros [= <- _] -> Hnd. simpl. f_equal.
  apply map_ext. intros row. unfold Py.dict_zip.
  now rewrite dict_zip_go by (auto; intros k _ []).
Qed.

Lemma X3_records_pair_columns_with_values_witness :
  exists r log',
    execute_query Fixtures.shop "SELECT * FROM orders LIMIT 2" [] = (Ok r, log') /\
    qr_data r = Some [[("id", Py.VInt 1)]; [("id", Py.VInt 2)]].
Proof.
  destruct (execute_query Fixtures.shop "SELECT * FROM orders LIMIT 2" [])
    as [[r|e] log'] eqn:Hrun; [|vm_compute in Hrun; discriminate].
  exists r, log'. split; [reflexivity|].
  apply (X3_records_pair_columns_with_values Fixtures.shop
           "SELECT * FROM orders LIMIT 2" [] log' r ["id"]
           [[Py.VInt 1]; [Py.VInt 2]] Hrun).
  - vm_compute. reflexivity.
  - apply (bool_decide_unpack _). vm_compute. exact I.
Defined.

(** X4. [get_sample_data] never raises. Its sample names the table as given,
    counts its rows in [total_rows_sampled], holds as many rows as the
    engine returned, and is the empty sample when the engine fails. *)
Theorem X4_sample_counts_its_rows (self : PostgreSQLManager)
    (table_name : string) (limit : Z) (log : list Call) :
  exists sd,
    postgres_db.get_sample_data self table_name limit log
    = (Ok sd, (log ++ [CExecute (sample_query table_name limit)])%list) /\
    sd_table_name sd = table_name /\
    sd_total_rows_sampled sd = Z.of_nat (length (sd_rows sd)) /\
    length (sd_rows sd) = length (engine_rows self (sample_query table_name limit)) /\
    (is_raise (execute (engine self) (sample_query table_name limit)) = true ->
     sd = empty_SampleData table_name).
Proof.
  unfold postgres_db.get_sample_data, try_except, bind, engine_rows.
  fold (sample_query table_name limit).
  rewrite execute_query_run.
  destruct (execute (engine self) (sample_query table_name limit))
    as [[columns [|row rows]|rowcount]|e]; simpl; unfold ret;
    eexists; (split; [reflexivity|]); simpl; repeat split; try discriminate.
  now rewrite length_map.
Qed.

(** ** The safety check *)

(** X5. [execute_select_query] never raises, and what it sends is decided by
    the safety check alone: nothing for a statement that fails it, and for a
    statement that passes it that statement, once and unchanged. *)
Theorem X5_select_tool_forwards_verbatim (db_manager : PostgreSQLManager)
    (sql_query : string) (log : list Call) :
  exists out,
    mcp.execute_select_query db_manager sql_query log
    = (Ok out,
       if passes_gate sql_query then (log ++ [CExecute sql_query])%list else log).
Proof.
  unfold mcp.execute_select_query, try_except, passes_gate.
  destruct (Py.startswith _ _); simpl; [|unfold ret; eauto].
  unfold bind. rewrite execute_query_run.
  destruct (execute (engine db_manager) sql_query) as [[columns rows|rowcount]|e];
    simpl; unfold ret; eauto.
Qed.

(** A text that does not begin with whitespace. *)
Lemma lstrip_trimmed (s : string) :
  match Py.lstrip s with
  | String c _ => Py.isspace c = false
  | EmptyString => True
  end.
Proof.
  induction s as [|c s IH]; simpl; [exact I|].
  destruct (Py.isspace c) eqn:Hc; [exact IH|exact Hc].
Qed.

Lemma rstrip_idempotent (s : string) : Py.rstrip (Py.rstrip s) = Py.rstrip s.
Proof.
  induction s as [|c s IH]; simpl; [reflexivity|].
  destruct (Py.rstrip s) as [|a r] eqn:Hr.
  - destruct (Py.isspace c) eqn:Hc; simpl; [reflexivity|now rewrite Hc].
  - change (Py.rstrip (String c (String a r))) with
      (match Py.rstrip (String a r) with
       | EmptyString => if Py.isspace c then EmptyString else String c EmptyString
       | r' => String c r'
       end).
    now rewrite IH.
Qed.

Lemma strip_idempotent (s : string) : Py.strip (Py.strip s) = Py.strip s.
Proof.
  unfold Py.strip. pose proof (lstrip_trimmed s) as Ht.
  destruct (Py.lstrip s) as [|c r]; [reflexivity|].
  rewrite (rstrip_cons_nonspace c r Ht). simpl Py.lstrip. rewrite Ht.
  rewrite <- (rstrip_cons_nonspace c r Ht). apply rstrip_idempotent.
Qed.

Section CharMap.

(** A change of letter case, character by character. *)
Variable f : ascii -> ascii.
Variable g : string -> string.
Hypothesis g_nil : g "" = "".
Hypothesis g_cons : forall c s, g (String c s) = String (f c) (g s).
Hypothesis f_space : forall c, Py.isspace (f c) = Py.isspace c.

Lemma lstrip_char_map (s : string) : Py.lstrip (g s) = g (Py.lstrip s).
Proof.
  induction s as [|c s IH]; [now rewrite g_nil|].
  rewrite g_cons. simpl. rewrite f_space.
  destruct (Py.isspace c); [exact IH|now rewrite g_cons].
Qed.

Lemma rstrip_char_map (s : string) : Py.rstrip (g s) = g (Py.rstrip s).
Proof.
  induction s as [|c s IH]; [now rewrite g_nil|].
  rewrite g_cons. simpl. rewrite IH, f_space.
  destruct (Py.rstrip s) as [|a r].
  - rewrite g_nil. destruct (Py.isspace c); [now rewrite g_nil|].
    now rewrite g_cons, g_nil.
  - rewrite !g_cons. reflexivity.
Qed.

Lemma strip_char_map (s : string) : Py.strip (g s) = g (Py.strip s).
Proof. unfold Py.strip. now rewrite lstrip_char_map, rstrip_char_map. Qed.

End CharMap.

Lemma isspace_upper_char (c : ascii) : Py.isspace (Py.upper_char c) = Py.isspace c.
Proof. destruct c as [[] [] [] [] [] [] [] []]; reflexivity. Qed.

Lemma isspace_lower_char (c : ascii) : Py.isspace (Py.lower_char c) = Py.isspace c.
Proof. destruct c as [[] [] [] [] [] [] [] []]; reflexivity. Qed.

Lemma upper_upper (s : string) : Py.upper (Py.upper s) = Py.upper s.
Proof.
  induction s as [|c s IH]; simpl; [reflexivity|]. rewrite IH. f_equal.
  destruct c as [[] [] [] [] [] [] [] []]; reflexivity.
Qed.

Lemma upper_lower (s : string) : Py.upper (Py.lower s) = Py.upper s.
Proof.
  induction s as [|c s IH]; simpl; [reflexivity|]. rewrite IH. f_equal.
  destruct c as [[] [] [] [] [] [] [] []]; reflexivity.
Qed.

(** X6. The safety check looks at the statement without its surrounding
    whitespace and without regard to letter case: trimming the statement or
    changing its case does not change the verdict. *)
Theorem X6_gate_ignores_case_and_margins (sql_query : string) :
  passes_gate (Py.strip sql_query) = passes_gate sql_query /\
  passes_gate (Py.upper sql_query) = passes_gate sql_query /\
  passes_gate (Py.lower sql_query) = passes_gate sql_query.
Proof.
  unfold passes_gate. split; [|split].
  - now rewrite strip_idempotent.
  - rewrite (strip_char_map Py.upper_char Py.upper eq_refl (fun _ _ => eq_refl)
               isspace_upper_char).
    now rewrite upper_upper.
  - rewrite (strip_char_map Py.lower_char Py.lower eq_refl (fun _ _ => eq_refl)
               isspace_lower_char).
    now rewrite upper_lower.
Qed.

Lemma prefix_cons (a b : ascii) (p s : string) :
  String.prefix (String a p) (String b s)
  = if ascii_dec a b then String.prefix p s else false.
Proof. reflexivity. Qed.




(** ** More on [get_table_schema] *)

Lemma get_table_schema_requests (self : PostgreSQLManager)
    (table_name : string) (log : list Call) :
  exists requests,
    snd (get_table_schema self table_name log) = (log ++ requests)%list /\
    requests `prefix_of` introspection_requests table_name /\
    forallb is_catalog_request requests = true.
Proof.
  unfold get_table_schema, get_table_schema_try, introspection_requests.
  unfold_M.
  repeat split_outcome; simpl;
    (eexists; split; [rewrite <- ?app_assoc; reflexivity|];
     split; [eexists; reflexivity|reflexivity]).
Qed.


(** X9. In a schema returned by [get_table_schema], every column whose
    primary-key flag is set is named in the list of primary keys. *)
Theorem X9_flagged_columns_are_primary_keys (self : PostgreSQLManager)
    (table_name : string) (log log' : list Call) (s : TableSchema) (x : string) :
  get_table_schema self table_name log = (Ok s, log') ->
  In x (primary_key_columns s) -> In x (ts_primary_keys s).
Proof.
  intros Hrun. exact (flagged_in_primary_keys self table_name log log' s Hrun x).
Qed.

Lemma X9_flagged_columns_are_primary_keys_witness :
  exists s log',
    get_table_schema Fixtures.shop "orders" [] = (Ok s, log') /\
    In "id" (ts_primary_keys s).
Proof.
  destruct (get_table_schema Fixtures.shop "orders" []) as [[s|e] log'] eqn:Hrun;
    [|vm_compute in Hrun; discriminate].
  exists s, log'. split; [reflexivity|].
  apply (X9_flagged_columns_are_primary_keys Fixtures.shop "orders" [] log' s "id" Hrun).
  vm_compute in Hrun. injection Hrun as Hs _. subst s.
  vm_compute. auto.
Defined.

(** X10. When the catalog reports column names without surrounding
    whitespace and a primary key made of columns of the table, the schema
    returned flags a column for every name of its primary-key list: with X9,
    the two sets of names are equal. *)
Theorem X10_primary_keys_are_flagged (self : PostgreSQLManager)
    (table_name : string) (log log' : list Call) (s : TableSchema) :
  get_table_schema self table_name log = (Ok s, log') ->
  (forall columns_info,
      get_columns (engine self) table_name = Ok columns_info ->
      Forall (fun col_info => Py.strip (ci_name col_info) = ci_name col_info)
        columns_info) ->
  (forall columns_info pk,
      get_columns (engine self) table_name = Ok columns_info ->
      get_pk_constraint (engine self) table_name = Ok (Some pk) ->
      incl pk (map ci_name columns_info)) ->
  forall x, In x (ts_primary_keys s) <-> In x (primary_key_columns s).
Proof.
  intros Hrun Htrim Hincl x. split.
  - now apply (primary_keys_flagged self table_name log log' s Hrun).
  - now apply (flagged_in_primary_keys self table_name log log' s Hrun).
Qed.

Lemma X10_primary_keys_are_flagged_witness :
  exists s log',
    get_table_schema Fixtures.shop "orders" [] = (Ok s, log') /\
    forall x, In x (ts_primary_keys s) <-> In x (primary_key_columns s).
Proof.
  destruct (get_table_schema Fixtures.shop "orders" []) as [[s|e] log'] eqn:Hrun;
    [|vm_compute in Hrun; discriminate].
  exists s, log'. split; [reflexivity|].
  apply (X10_primary_keys_are_flagged Fixtures.shop "orders" [] log' s Hrun).
  - intros columns_info [= <-]. repeat constructor.
  - intros columns_info pk [= <-] [= <-]. intros x [<-|[]]. simpl. auto.
Defined.

Lemma column_of_mirrors (col_info : ColumnInfo) (col : DatabaseColumn) :
  column_of col_info = Ok col -> mirrors col_info col.
Proof.
  unfold column_of, new_DatabaseColumn, mirrors.
  destruct (validate_name (ci_name col_info)) as [name|] eqn:Hv; [|discriminate].
  intros [= <-]. simpl. repeat split. exact (validate_name_ok _ _ Hv).
Qed.

Lemma mark_primary_key_mirrors (primary_keys : list string)
    (col_info : ColumnInfo) (col : DatabaseColumn) :
  mirrors col_info col -> mirrors col_info (mark_primary_key primary_keys col).
Proof.
  unfold mirrors, mark_primary_key. now destruct (bool_decide _).
Qed.

Lemma map_outcome_mirrors (primary_keys : list string)
    (columns_info : list ColumnInfo) :
  forall columns,
    map_outcome column_of columns_info = Ok columns ->
    Forall2 mirrors columns_info (map (mark_primary_key primary_keys) columns).
Proof.
  induction columns_info as [|col_info rest IH]; intros columns; simpl.
  - intros [= <-]. constructor.
  - destruct (column_of col_info) as [col|] eqn:Hcol; [|discriminate].
    destruct (map_outcome column_of rest) as [cols|]; [|discriminate].
    intros [= <-]. simpl. constructor; [|now apply IH].
    apply mark_primary_key_mirrors, column_of_mirrors, Hcol.
Qed.

(** X11. A schema with columns has one column for each descriptor of the
    catalog, in the same order, with the trimmed name and the type, the
    nullability and the default of the descriptor. *)
Theorem X11_columns_mirror_catalog (self : PostgreSQLManager)
    (table_name : string) (log log' : list Call) (s : TableSchema) :
  get_table_schema self table_name log = (Ok s, log') ->
  ts_columns s <> [] ->
  exists columns_info,
    get_columns (engine self) table_name = Ok columns_info /\
    Forall2 mirrors columns_info (ts_columns s).
Proof.
  intros Hrun Hne.
  destruct (get_table_schema_inv _ _ _ _ _ Hrun) as [_ [->|Hs]];
    [now destruct Hne|].
  destruct Hs as (infos & cols & pk & fks & idxs & Hc & Hcols & _ & _ & _ & ->).
  exists infos. split; [exact Hc|]. simpl. now apply map_outcome_mirrors.
Qed.

Lemma X11_columns_mirror_catalog_witness :
  exists s log' columns_info,
    get_table_schema Fixtures.shop "users" [] = (Ok s, log') /\
    get_columns (engine Fixtures.shop) "users" = Ok columns_info /\
    Forall2 mirrors columns_info (ts_columns s).
Proof.
  destruct (get_table_schema Fixtures.shop "users" []) as [[s|e] log'] eqn:Hrun;
    [|vm_compute in Hrun; discriminate].
  destruct (X11_columns_mirror_catalog Fixtures.shop "users" [] log' s Hrun)
    as (columns_info & Hc & Hm).
  - vm_compute in Hrun. injection Hrun as Hs _. subst s. discriminate.
  - exists s, log', columns_info. auto.
Defined.

Lemma map_outcome_column_of_blank (columns_info : list ColumnInfo) :
  Exists (fun col_info => Py.strip (ci_name col_info) = "") columns_info ->
  is_raise (map_outcome column_of columns_info) = true.
Proof.
  induction 1 as [col_info rest Hb|col_info rest _ IH]; simpl.
  - unfold column_of, new_DatabaseColumn, validate_name, Py.falsy.
    rewrite Hb. rewrite (bool_decide_eq_true_2 ("" = "")) by reflexivity.
    now rewrite orb_true_r.
  - destruct (column_of col_info); [|reflexivity].
    destruct (map_outcome column_of rest); [discriminate IH|reflexivity].
Qed.

(** X12. One column with an empty or blank name hides the whole table: the
    schema returned is the empty one, and the introspection stops after the
    columns. *)
Theorem X12_blank_column_empties_schema (self : PostgreSQLManager)
    (table_name : string) (log : list Call) (columns_info : list ColumnInfo) :
  inspect (engine self) = Ok tt ->
  get_columns (engine self) table_name = Ok columns_info ->
  Exists (fun col_info => Py.strip (ci_name col_info) = "") columns_info ->
  Py.strip table_name <> "" ->
  get_table_schema self table_name log
  = (Ok (empty_schema table_name),
     (log ++ [CInspect; CGetColumns table_name])%list).
Proof.
  intros Hi Hc Hblank Hb.
  apply map_outcome_column_of_blank in Hblank.
  unfold get_table_schema, get_table_schema_try, new_TableSchema.
  rewrite (validate_table_name_nonblank _ Hb). unfold_M. rewrite Hi, Hc.
  destruct (map_outcome column_of columns_info); [discriminate|].
  now rewrite <- app_assoc.
Qed.

Lemma X12_blank_column_empties_schema_witness :
  get_table_schema
    {| config := Fixtures.a_config;
       engine :=
         {| inspect := Ok tt; get_table_names := Ok ["t"];
            get_columns t := Ok [Fixtures.column "id" "INTEGER" false;
                                 Fixtures.column " " "TEXT" true];
            get_pk_constraint t := Ok (Some ["id"]);
            get_foreign_keys t := Ok []; get_indexes t := Ok [];
            execute q := Raise (SQLAlchemyError "syntax error");
            elapsed q := Fixtures.an_elapsed |} |} "t" []
  = (Ok (empty_schema "t"), [CInspect; CGetColumns "t"]).
Proof.
  apply (X12_blank_column_empties_schema _ "t" []
           [Fixtures.column "id" "INTEGER" false; Fixtures.column " " "TEXT" true]).
  - reflexivity.
  - reflexivity.
  - apply Exists_cons_tl, Exists_cons_hd. reflexivity.
  - vm_compute. discriminate.
Defined.

Lemma schema_name_trimmed (self : PostgreSQLManager)
    (table_name : string) (log log' : list Call) (s : TableSchema) :
  get_table_schema self table_name log = (Ok s, log') ->
  ts_table_name s = Py.strip table_name /\ Py.strip table_name <> "".
Proof.
  intros Hrun.
  destruct (get_table_schema_inv _ _ _ _ _ Hrun) as [Hb [->|Hs]].
  - simpl. auto.
  - destruct Hs as (? & ? & ? & ? & ? & _ & _ & _ & _ & _ & ->). simpl. auto.
Qed.

(** X13. The table name of a returned schema is the trimmed name asked for,
    and it is never empty. *)
Theorem X13_schema_name_is_trimmed (self : PostgreSQLManager)
    (table_name : string) (log log' : list Call) (s : TableSchema) :
  get_table_schema self table_name log = (Ok s, log') ->
  ts_table_name s = Py.strip table_name /\
  ts_table_name s <> "" /\
  Py.strip (ts_table_name s) = ts_table_name s.
Proof.
  intros Hrun. destruct (schema_name_trimmed _ _ _ _ _ Hrun) as [-> Hb].
  auto using strip_idempotent.
Qed.

Lemma X13_schema_name_is_trimmed_witness :
  exists s log',
    get_table_schema Fixtures.shop "  orders " [] = (Ok s, log') /\
    ts_table_name s = "orders".
Proof.
  destruct (get_table_schema Fixtures.shop "  orders " []) as [[s|e] log'] eqn:Hrun;
    [|vm_compute in Hrun; discriminate].
  exists s, log'. split; [reflexivity|].
  exact (proj1 (X13_schema_name_is_trimmed Fixtures.shop "  orders " [] log' s Hrun)).
Defined.

(** ** More on [get_database_schema] *)

Section SnapshotFacts.

Variable self : PostgreSQLManager.

(** The schema computed for a name does not depend on the requests made
    before. *)
Lemma get_table_schema_value (table_name : string) (log log0 : list Call) :
  fst (get_table_schema self table_name log)
  = fst (get_table_schema self table_name log0).
Proof.
  unfold get_table_schema, get_table_schema_try. unfold_M.
  repeat split_outcome; reflexivity.
Qed.

Lemma schema_of_run (table_name : string) (log log' : list Call) (s : TableSchema) :
  get_table_schema self table_name log = (Ok s, log') ->
  schema_of self table_name = Some s.
Proof.
  intros Hrun. unfold schema_of.
  rewrite (get_table_schema_value table_name [] log), Hrun. reflexivity.
Qed.

Lemma get_database_schema_loop_lookup (tables : list string) :
  forall (acc m : gmap string TableSchema) (log log' : list Call),
    get_database_schema_loop self tables acc log = (Ok m, log') ->
    forall name,
      m !! name
      = if bool_decide (name ∈ tables) then schema_of self name else acc !! name.
Proof.
  induction tables as [|table rest IH]; intros acc m log log' Hrun name.
  - simpl in Hrun. injection Hrun as <- _.
    rewrite bool_decide_eq_false_2 by apply not_elem_of_nil. reflexivity.
  - simpl in Hrun. unfold bind in Hrun.
    destruct (get_table_schema self table log) as [[s|e] log1] eqn:Hs;
      [|discriminate].
    rewrite (IH _ _ _ _ Hrun name).
    destruct (decide (name = table)) as [->|Hne].
    + rewrite (bool_decide_eq_true_2 (table ∈ table :: rest)) by apply list_elem_of_here.
      rewrite lookup_insert_eq, (schema_of_run _ _ _ _ Hs).
      now destruct (bool_decide (table ∈ rest)).
    + rewrite lookup_insert_ne by congruence.
      destruct (bool_decide (name ∈ rest)) eqn:Hin.
      * apply bool_decide_eq_true_1 in Hin.
        rewrite bool_decide_eq_true_2; [reflexivity|now apply list_elem_of_further].
      * apply bool_decide_eq_false_1 in Hin.
        rewrite bool_decide_eq_false_2; [reflexivity|].
        intros [?|?]%elem_of_cons; tauto.
Qed.

Lemma get_database_schema_loop_raises (tables : list string) :
  Exists (fun table => Py.strip table = "") tables ->
  forall (acc : gmap string TableSchema) (log : list Call),
    exists log',
      get_database_schema_loop self tables acc log
      = (Raise (ValidationError "TableSchema" "table_name"
                  "Table name cannot be empty"), log').
Proof.
  induction 1 as [table rest Hb|table rest _ IH]; intros acc log; simpl;
    unfold bind.
  - destruct (get_table_schema_blank self table log Hb) as [log' ->]. eauto.
  - destruct (decide (Py.strip table = "")) as [Hb|Hb].
    + destruct (get_table_schema_blank self table log Hb) as [log' ->]. eauto.
    + destruct (get_table_schema_returns self table log Hb) as (s & log1 & ->).
      apply IH.
Qed.

Lemma list_tables_ok (names : list string) (log : list Call) :
  inspect (engine self) = Ok tt ->
  get_table_names (engine self) = Ok names ->
  list_tables self log = (Ok names, (log ++ [CInspect; CGetTableNames])%list).
Proof.
  intros Hi Hn. unfold list_tables. unfold_M. rewrite Hi, Hn.
  now rewrite <- app_assoc.
Qed.

End SnapshotFacts.

(** X14. The snapshot is all or nothing with respect to blank names: when
    no table name of the catalog is empty or blank, [get_database_schema]
    returns a schema; when one is, the validation error of that table
    escapes and no snapshot is returned. *)
Theorem X14_blank_name_aborts_snapshot (self : PostgreSQLManager)
    (names : list string) (log : list Call) :
  inspect (engine self) = Ok tt ->
  get_table_names (engine self) = Ok names ->
  (Forall (fun table => Py.strip table <> "") names ->
   exists schema log', get_database_schema self log = (Ok schema, log')) /\
  (Exists (fun table => Py.strip table = "") names ->
   exists log',
     get_database_schema self log
     = (Raise (ValidationError "TableSchema" "table_name"
                 "Table name cannot be empty"), log')).
Proof.
  intros Hi Hn. split.
  - intros Hall. apply get_database_schema_returns.
    intros names' Hn'. rewrite Hn in Hn'. now injection Hn' as <-.
  - intros Hex. unfold get_database_schema, bind.
    rewrite (list_tables_ok self names log Hi Hn).
    destruct (get_database_schema_loop_raises self names Hex ∅
                (log ++ [CInspect; CGetTableNames])%list) as [log' ->].
    eauto.
Qed.

Lemma X14_blank_name_aborts_snapshot_witness :
  (exists schema log',
      get_database_schema (Fixtures.listing ["users"; "orders"]) []
      = (Ok schema, log')) /\
  (exists log',
      get_database_schema (Fixtures.listing ["users"; " "; "orders"]) []
      = (Raise (ValidationError "TableSchema" "table_name"
                  "Table name cannot be empty"), log')).
Proof.
  split.
  - apply (X14_blank_name_aborts_snapshot (Fixtures.listing ["users"; "orders"])
             ["users"; "orders"] [] eq_refl eq_refl).
    repeat constructor; vm_compute; discriminate.
  - apply (X14_blank_name_aborts_snapshot
             (Fixtures.listing ["users"; " "; "orders"])
             ["users"; " "; "orders"] [] eq_refl eq_refl).
    apply Exists_cons_tl, Exists_cons_hd. reflexivity.
Defined.

(** X15. In a snapshot, looking a name up with [get_table_by_name] gives the
    schema that [get_table_schema] computes for that name when the name is
    one that [list_tables] returned, and nothing otherwise. The entry is
    filed under the name as listed, while the schema in it carries the
    trimmed name. *)
Theorem X15_snapshot_lookup (self : PostgreSQLManager) (log log' : list Call)
    (schema : DatabaseSchema) :
  get_database_schema self log = (Ok schema, log') ->
  exists names,
    (names = [] \/ get_table_names (engine self) = Ok names) /\
    forall name,
      DatabaseSchema_get_table_by_name schema name
      = (if bool_decide (name ∈ names) then schema_of self name else None)
      /\ (forall s, DatabaseSchema_get_table_by_name schema name = Some s ->
                    ts_table_name s = Py.strip name).
Proof.
  unfold get_database_schema, bind.
  destruct (list_tables_inv self log) as (names & log1 & -> & Hnames).
  destruct (get_database_schema_loop self names ∅ log1) as [[m|e] log2] eqn:Hloop;
    [|discriminate].
  intros [= <- _]. exists names. split; [exact Hnames|]. intros name.
  unfold DatabaseSchema_get_table_by_name. simpl.
  rewrite (get_database_schema_loop_lookup self names _ _ _ _ Hloop name).
  rewrite lookup_empty. split; [reflexivity|].
  intros s Hs. destruct (bool_decide (name ∈ names)); [|discriminate].
  unfold schema_of in Hs.
  destruct (get_table_schema self name []) as [[s'|e] l] eqn:Hrun;
    simpl in Hs; [|discriminate].
  injection Hs as ->.
  exact (proj1 (schema_name_trimmed self name [] l s Hrun)).
Qed.

Lemma X15_snapshot_lookup_witness :
  exists schema log' s,
    get_database_schema Fixtures.shop [] = (Ok schema, log') /\
    DatabaseSchema_get_table_by_name schema "orders" = Some s /\
    DatabaseSchema_get_table_by_name schema "invoices" = None.
Proof.
  destruct (get_database_schema Fixtures.shop []) as [[schema|e] log'] eqn:Hrun;
    [|vm_compute in Hrun; discriminate].
  destruct (X15_snapshot_lookup Fixtures.shop [] log' schema Hrun)
    as (names & Hnames & Hlookup).
  assert (names = ["users"; "orders"]) as ->.
  { destruct Hnames as [->|[= <-]]; [|reflexivity].
    vm_compute in Hrun. injection Hrun as Hs _. subst schema.
    destruct (Hlookup "orders") as [H _]. vm_compute in H. discriminate. }
  destruct (schema_of Fixtures.shop "orders") as [s|] eqn:Hs;
    [|vm_compute in Hs; discriminate].
  exists schema, log', s. split; [reflexivity|]. split.
  - rewrite (proj1 (Hlookup "orders")), <- Hs. reflexivity.
  - rewrite (proj1 (Hlookup "invoices")). reflexivity.
Defined.

(** ** More on [get_table_statistics] *)

(** X16. [get_table_statistics] never raises: a failure of the schema, of
    the count or of the formatting ends in a text. The only statement it can
    send is the count for the table name as given, after the requests of
    the introspection. *)
Theorem X16_statistics_never_raise (db_manager : PostgreSQLManager)
    (table_name : string) (log : list Call) :
  exists out requests,
    mcp.get_table_statistics db_manager table_name log
    = (Ok out, (log ++ requests)%list) /\
    forall q, In (CExecute q) requests -> q = count_query table_name.
Proof.
  destruct (get_table_schema_requests db_manager table_name log)
    as (requests & Hlog & _ & Hcat).
  assert (forall q, ~ In (CExecute q) requests) as Hnone.
  { intros q Hq. rewrite forallb_forall in Hcat. now apply Hcat in Hq. }
  destruct (get_table_schema db_manager table_name log) as [[schema|e] log1] eqn:Hs;
    simpl in Hlog; subst log1.
  - destruct (ts_columns schema) as [|col cols] eqn:Hc.
    + exists ("Table '" +:+ table_name +:+ "' not found or has no columns"), requests.
      split; [exact (get_table_statistics_no_columns db_manager table_name
                       log _ schema Hs Hc)|].
      intros q Hq. now destruct (Hnone q).
    + destruct (get_table_statistics_returns db_manager table_name _ _ _ Hs)
        as (response & Hrun); [congruence|].
      eexists. exists (requests ++ [CExecute (count_query table_name)])%list.
      split; [rewrite Hrun, app_assoc; reflexivity|].
      intros q [Hq|[[= <-]|[]]]%in_app_iff; [now destruct (Hnone q)|reflexivity].
  - eexists. exists requests.
    split; [exact (get_table_statistics_schema_raises db_manager table_name
                     log _ e Hs)|].
    intros q Hq. now destruct (Hnone q).
Qed.

(** X17. The row-count step ends in one of three ways: the response is left
    as it was; or the count of the first record is written, with separators
    of thousands; or the words [Unable to determine] are written, which
    happens only when the count statement succeeded and the first record
    has no numeric [row_count]. *)
Theorem X17_row_count_outcomes (db_manager : PostgreSQLManager)
    (table_name response : string) (log log' : list Call) (r : string) :
  mcp.row_count_lines db_manager table_name response log = (Ok r, log') ->
  r = response
  \/ (exists columns row rows n,
        execute (engine db_manager) (count_query table_name)
        = Ok (ReturnsRows columns (row :: rows)) /\
        Py.dict_get "row_count" (Py.dict_zip columns row) = Some (Py.VInt n) /\
        r = response +:+ "Total Rows: " +:+ mcp.format_comma_int n
            +:+ Py.nl +:+ Py.nl)
  \/ (exists columns row rows e,
        execute (engine db_manager) (count_query table_name)
        = Ok (ReturnsRows columns (row :: rows)) /\
        (forall n, Py.dict_get "row_count" (Py.dict_zip columns row)
                   <> Some (Py.VInt n)) /\
        r = response +:+ "Row count: Unable to determine (" +:+ str_exn e
            +:+ ")" +:+ Py.nl +:+ Py.nl).
Proof.
  unfold mcp.row_count_lines, try_except, bind.
  fold (count_query table_name). rewrite execute_query_run.
  destruct (execute (engine db_manager) (count_query table_name))
    as [[columns [|row rows]|rowcount]|e]; simpl; unfold ret;
    try (intros [= <- _]; now left).
  destruct (Py.dict_get "row_count" (Py.dict_zip columns row)) as [v|] eqn:Hget.
  - unfold lift. destruct v as [|n|s]; simpl; intros [= <- _].
    + right. right. exists columns, row, rows. eexists (TypeError _).
      split; [reflexivity|]. split; [|reflexivity]. rewrite Hget. congruence.
    + right. left. exists columns, row, rows, n. rewrite Hget. auto.
    + right. right. exists columns, row, rows. eexists (ValueError _).
      split; [reflexivity|]. split; [|reflexivity]. rewrite Hget. congruence.
  - unfold raise. intros [= <- _].
    right. right. exists columns, row, rows, (KeyError "row_count").
    split; [reflexivity|]. split; [|reflexivity]. rewrite Hget. congruence.
Qed.

Lemma X17_row_count_outcomes_witness :
  exists r log',
    mcp.row_count_lines Fixtures.shop "orders" "" [] = (Ok r, log') /\
    r = "Total Rows: 30" +:+ Py.nl +:+ Py.nl.
Proof.
  destruct (mcp.row_count_lines Fixtures.shop "orders" "" []) as [[r|e] log']
    eqn:Hrun; [|vm_compute in Hrun; discriminate].
  exists r, log'. split; [reflexivity|].
  destruct (X17_row_count_outcomes Fixtures.shop "orders" "" [] log' r Hrun)
    as [H|[H|H]];
    vm_compute in Hrun; injection Hrun as Hr _; subst r; reflexivity.
Defined.

(** ** The format with separators of thousands *)

Lemma remove_commas_rev_app (s acc : string) :
  remove_commas (String.rev_app s acc)
  = String.rev_app (remove_commas s) (remove_commas acc).
Proof.
  revert acc. induction s as [|c s IH]; intros acc; simpl; [reflexivity|].
  rewrite IH. simpl. now destruct (Ascii.eqb c ",").
Qed.

Lemma remove_commas_none (s : string) :
  all_chars (fun c => negb (Ascii.eqb c ",")) s = true -> remove_commas s = s.
Proof.
  induction s as [|c s IH]; simpl; [reflexivity|].
  intros [Hc Hs]%andb_true_iff. apply negb_true_iff in Hc. rewrite Hc.
  now rewrite IH.
Qed.

Lemma remove_commas_commas_rev (s : string) :
  all_chars (fun c => negb (Ascii.eqb c ",")) s = true ->
  forall k, remove_commas (mcp.commas_rev s k) = s.
Proof.
  induction s as [|c s IH]; simpl; [reflexivity|].
  intros [Hc Hs]%andb_true_iff k. apply negb_true_iff in Hc.
  destruct k as [|[|[|[|k]]]]; simpl; rewrite Hc, IH; auto.
Qed.

Lemma rev_app_rev_app (s a b : string) :
  String.rev_app (String.rev_app s a) b = String.rev_app a (s +:+ b).
Proof.
  revert a. induction s as [|c s IH]; intros a; simpl; [reflexivity|].
  now rewrite IH.
Qed.

Lemma append_empty (s : string) : s +:+ "" = s.
Proof.
  induction s as [|c s IH]; [reflexivity|].
  change (String c s +:+ "") with (String c (s +:+ "")). now rewrite IH.
Qed.

Lemma all_chars_rev_app (p : ascii -> bool) (s acc : string) :
  all_chars p s = true -> all_chars p acc = true ->
  all_chars p (String.rev_app s acc) = true.
Proof.
  revert acc. induction s as [|c s IH]; intros acc; simpl; [auto|].
  intros [Hc Hs]%andb_true_iff Hacc. apply IH; [exact Hs|]. simpl.
  now rewrite Hc.
Qed.

Lemma pretty_N_char_no_comma (x : N) : Ascii.eqb (pretty_N_char x) "," = false.
Proof. unfold pretty_N_char. repeat case_match; reflexivity. Qed.

Lemma pretty_N_go_no_comma (x : N) :
  forall s,
    all_chars (fun c => negb (Ascii.eqb c ",")) s = true ->
    all_chars (fun c => negb (Ascii.eqb c ",")) (pretty_N_go x s) = true.
Proof.
  induction (N.lt_wf_0 x) as [x _ IH]. intros s Hs.
  destruct (decide (x = 0)%N) as [->|Hx]; [now rewrite pretty_N_go_0|].
  rewrite pretty_N_go_step by lia.
  apply IH; [apply N.div_lt; lia|]. simpl.
  now rewrite pretty_N_char_no_comma.
Qed.

Lemma str_int_no_comma (n : Z) :
  0 <= n -> all_chars (fun c => negb (Ascii.eqb c ",")) (Py.str_int n) = true.
Proof.
  intros Hn. destruct n as [|p|p]; [reflexivity| |lia].
  unfold Py.str_int, pretty, pretty_Z, pretty, pretty_positive, pretty, pretty_N.
  destruct (decide (N.pos p = 0)%N); [reflexivity|].
  now apply pretty_N_go_no_comma.
Qed.

(** X18. The separators change nothing else: the count written by
    [get_table_statistics], without its commas, is the decimal writing of
    the number. *)
Theorem X18_commas_only_separate (n : Z) :
  remove_commas (mcp.format_comma_int n) = Py.str_int n.
Proof.
  assert (remove_commas
            (String.rev (mcp.commas_rev (String.rev (Py.str_int (Z.abs n))) 0))
          = Py.str_int (Z.abs n)) as Habs.
  { pose proof (str_int_no_comma (Z.abs n) (Z.abs_nonneg n)) as Hd.
    unfold String.rev at 1. rewrite remove_commas_rev_app.
    rewrite remove_commas_commas_rev
      by (unfold String.rev; now apply all_chars_rev_app).
    unfold String.rev. simpl remove_commas.
    now rewrite rev_app_rev_app, append_empty. }
  unfold mcp.format_comma_int. destruct n as [|p|p].
  - reflexivity.
  - exact Habs.
  - change (remove_commas
              (String "-"
                 (String.rev
                    (mcp.commas_rev
                       (String.rev (Py.str_int (Z.abs (Z.neg p)))) 0)))
            = Py.str_int (Z.neg p)).
    change (remove_commas (String "-" ?x)) with (String "-" (remove_commas x)).
    rewrite Habs. reflexivity.
Qed.

(** ** The table names of a snapshot *)

(** X19. The names that [get_table_names] gives for a snapshot are the table
    names of the catalog, each once, in ascending order. *)
Theorem X19_table_names_sorted (self : PostgreSQLManager) (log log' : list Call)
    (schema : DatabaseSchema) :
  get_database_schema self log = (Ok schema, log') ->
  Sorted String.le (DatabaseSchema_get_table_names schema) /\
  NoDup (DatabaseSchema_get_table_names schema) /\
  exists names,
    (names = [] \/ get_table_names (engine self) = Ok names) /\
    forall name, name ∈ DatabaseSchema_get_table_names schema <-> name ∈ names.
Proof.
  intros Hrun. unfold DatabaseSchema_get_table_names.
  split; [apply Sorted_merge_sort, _|]. split.
  - rewrite merge_sort_Permutation. apply NoDup_fst_map_to_list.
  - apply get_database_schema_inv in Hrun as (names & Hnames & _ & Hdom).
    exists names. split; [exact Hnames|]. intros name.
    rewrite merge_sort_Permutation.
    change (map fst (map_to_list (ds_tables schema)))
      with ((map_to_list (ds_tables schema)).*1).
    rewrite <- (elem_of_list_to_set (C := gset string) name names), <- Hdom.
    rewrite elem_of_dom, list_elem_of_fmap. split.
    + intros ([k v] & -> & Hkv). apply elem_of_map_to_list in Hkv. simpl. eauto.
    + intros [v Hv]. exists (name, v). split; [reflexivity|].
      now apply elem_of_map_to_list.
Qed.

Lemma X19_table_names_sorted_witness :
  exists schema log',
    get_database_schema Fixtures.shop [] = (Ok schema, log') /\
    DatabaseSchema_get_table_names schema = ["orders"; "users"] /\
    Sorted String.le (DatabaseSchema_get_table_names schema).
Proof.
  destruct (get_database_schema Fixtures.shop []) as [[schema|e] log'] eqn:Hrun;
    [|vm_compute in Hrun; discriminate].
  exists schema, log'. split; [reflexivity|].
  split; [|exact (proj1 (X19_table_names_sorted Fixtures.shop [] log' schema Hrun))].
  vm_compute in Hrun. injection Hrun as Hs _. subst schema. vm_compute. reflexivity.
Defined.

(** ** [list_databases] and [generate_table_description] *)

(** X20. [list_databases] never raises. It asks the server's [postgres]
    database, reached with the host, port and credentials of the manager;
    when the engine for it cannot be made nothing is sent and the list is
    empty, when the statement fails the list is empty, and otherwise the
    list holds the first field of every row. *)
Theorem X20_list_databases_degrades (self : PostgreSQLManager)
    (create_engine : string -> outcome Engine) (log : list Call) :
  exists databases,
    fst (list_databases self create_engine log) = Ok databases /\
    match create_engine
            (ConnectionConfig_get_connection_string
               (with_database (config self) "postgres")) with
    | Raise _ =>
        databases = [] /\ snd (list_databases self create_engine log) = log
    | Ok temp_engine =>
        snd (list_databases self create_engine log)
        = (log ++ [CExecute list_databases_query])%list /\
        match execute temp_engine list_databases_query with
        | Ok (ReturnsRows _ rows) =>
            (Forall (fun row => row <> []) rows ->
             databases = map (hd Py.VNone) rows)
        | _ => databases = []
        end
    end.
Proof.
  unfold list_databases. unfold_M.
  destruct (create_engine _) as [temp_engine|e]; simpl; [|eauto].
  destruct (execute temp_engine list_databases_query)
    as [[keys rows|rowcount]|e]; simpl; [|eauto..].
  match goal with
  | |- context [map_outcome ?f rows] =>
      assert (Forall (fun row => row <> []) rows ->
              map_outcome f rows = Ok (map (hd Py.VNone) rows)) as Hall
  end.
  { induction 1 as [|row rest Hrow _ IH]; simpl; [reflexivity|].
    destruct row as [|v row]; [now destruct Hrow|]. now rewrite IH. }
  destruct (map_outcome _ rows) as [databases|e] eqn:Hm; simpl.
  - exists databases. split; [reflexivity|]. split; [reflexivity|].
    intros Hne. specialize (Hall Hne). congruence.
  - exists []. split; [reflexivity|]. split; [reflexivity|].
    intros Hne. specialize (Hall Hne). congruence.
Qed.

(** X21. [generate_table_description] has no handler of its own: for an
    empty or blank table name the validation error escapes to the caller.
    For any other name it returns a text, which is the fixed sentence when a
    request of the introspection fails. *)
Theorem X21_description_propagates_validation (self : PostgreSQLManager)
    (table_name : string) (log : list Call) :
  (Py.strip table_name = "" /\
   exists log',
     generate_table_description self table_name log
     = (Raise (ValidationError "TableSchema" "table_name"
                 "Table name cannot be empty"), log'))
  \/ (Py.strip table_name <> "" /\
      exists out log',
        generate_table_description self table_name log = (Ok out, log') /\
        (fetch_fails self table_name = true ->
         out = "Table '" +:+ table_name +:+ "' not found or has no columns.")).
Proof.
  unfold generate_table_description, bind.
  destruct (decide (Py.strip table_name = "")) as [Hb|Hb].
  - left. split; [exact Hb|].
    destruct (get_table_schema_blank self table_name log Hb) as [log' ->]. eauto.
  - right. split; [exact Hb|].
    destruct (fetch_fails self table_name) eqn:Hf.
    + destruct (get_table_schema_fetch_fails self table_name log Hf Hb)
        as [log' ->].
      simpl. unfold ret. eauto.
    + destruct (get_table_schema_returns self table_name log Hb)
        as (s & log' & ->).
      destruct (ts_columns s); unfold ret; eexists; eexists;
        (split; [reflexivity|discriminate]).
Qed.

(** ** More tools *)



(** X24. The tool [suggest_useful_queries] only writes statements down: it
    never raises and never sends one; its requests are those of one
    introspection. *)
Theorem X24_suggestions_send_no_statement (db_manager : PostgreSQLManager)
    (table_name : string) (log : list Call) :
  exists out requests,
    mcp.suggest_useful_queries db_manager table_name log
    = (Ok out, (log ++ requests)%list) /\
    requests `prefix_of` introspection_requests table_name /\
    forallb is_catalog_request requests = true.
Proof.
  destruct (get_table_schema_requests db_manager table_name log)
    as (requests & Hlog & Hpre & Hcat).
  unfold mcp.suggest_useful_queries, try_except. unfold bind at 1.
  destruct (get_table_schema db_manager table_name log) as [[schema|e] log1];
    simpl in Hlog; subst log1.
  - destruct (ts_columns schema) as [|col cols]; [unfold ret; eauto 6|].
    destruct (ts_foreign_keys schema) as [|fk fks]; [unfold ret; eauto 6|].
    unfold bind, lift.
    destruct (mcp.join_query_lines _ _); unfold ret; eauto 6.
  - unfold ret. eauto 6.
Qed.

(** ** The video identifier *)

Lemma take_id_spec (n : nat) :
  forall s w,
    mcp.take_id n s = Some w ->
    String.length w = n /\ all_chars mcp.isid w = true /\
    s = w +:+ mcp.drop_string n s.
Proof.
  induction n as [|n IH]; intros s w; simpl.
  - intros [= <-]. auto.
  - destruct s as [|c s]; [discriminate|].
    destruct (mcp.isid c) eqn:Hc; [|discriminate].
    destruct (mcp.take_id n s) as [w'|] eqn:Hw; [|discriminate].
    intros [= <-]. destruct (IH s w' Hw) as (Hlen & Hall & Hs).
    simpl. rewrite Hc, Hlen, Hall. repeat split.
    change (String c w' +:+ mcp.drop_string n s)
      with (String c (w' +:+ mcp.drop_string n s)).
    now rewrite <- Hs.
Qed.

Lemma take_id_complete (w rest : string) :
  all_chars mcp.isid w = true ->
  mcp.take_id (String.length w) (w +:+ rest) = Some w /\
  mcp.drop_string (String.length w) (w +:+ rest) = rest.
Proof.
  induction w as [|c w IH]; simpl; [auto|].
  intros [Hc Hw]%andb_true_iff. destruct (IH Hw) as [Ht Hd].
  change (String c w +:+ rest) with (String c (w +:+ rest)).
  simpl. rewrite Hc, Ht. auto.
Qed.

Lemma re_search_some (m : string -> option string) (s w : string) :
  mcp.re_search m s = Some w -> exists n, m (mcp.drop_string n s) = Some w.
Proof.
  induction s as [|c s IH]; simpl.
  - destruct (m "") eqn:Hm; [|discriminate]. intros [= <-]. now exists 0%nat.
  - destruct (m (String c s)) eqn:Hm.
    + intros [= <-]. now exists 0%nat.
    + intros Hs. destruct (IH Hs) as [n Hn]. now exists (S n).
Qed.

Lemma re_search_none (m : string -> option string) (s : string) :
  mcp.re_search m s = None -> forall n, m (mcp.drop_string n s) = None.
Proof.
  induction s as [|c s IH]; simpl.
  - destruct (m "") eqn:Hm; [discriminate|]. intros _ [|n]; exact Hm.
  - destruct (m (String c s)) eqn:Hm; [discriminate|].
    intros Hs [|n]; [exact Hm|]. simpl. now apply IH.
Qed.

Lemma drop_string_add (n k : nat) (s : string) :
  mcp.drop_string (n + k) s = mcp.drop_string k (mcp.drop_string n s).
Proof.
  revert s. induction n as [|n IH]; intros s; simpl; [reflexivity|].
  destruct s as [|c s]; [now destruct k|apply IH].
Qed.

Lemma prefix_true (p s : string) :
  String.prefix p s = true -> s = p +:+ mcp.drop_string (String.length p) s.
Proof.
  revert s. induction p as [|a p IH]; intros s; [reflexivity|].
  destruct s as [|b s]; [discriminate|]. rewrite prefix_cons.
  destruct (ascii_dec a b) as [->|]; [|discriminate].
  intros Hp. change (String b p +:+ ?x) with (String b (p +:+ x)). simpl.
  now rewrite <- IH.
Qed.

(** The three patterns capture eleven characters of the class. *)
Lemma extract_video_id_spec (url video_id : string) :
  mcp.extract_video_id url = Some video_id ->
  String.length video_id = 11%nat /\ all_chars mcp.isid video_id = true.
Proof.
  unfold mcp.extract_video_id.
  assert (forall m,
             (forall t w, m t = Some w -> exists t', mcp.take_id 11 t' = Some w) ->
             mcp.re_search m url = Some video_id ->
             String.length video_id = 11%nat
             /\ all_chars mcp.isid video_id = true) as Hm.
  { intros m Hcap Hs. apply re_search_some in Hs as [n Hn].
    destruct (Hcap _ _ Hn) as [t' Ht']. apply take_id_spec in Ht'. tauto. }
  destruct (mcp.re_search mcp.match_watch url) eqn:H1.
  { intros [= <-]. apply (Hm mcp.match_watch); [|exact H1].
    intros t w. unfold mcp.match_watch.
    repeat (destruct (String.prefix _ t)); eauto; discriminate. }
  destruct (mcp.re_search mcp.match_embed url) eqn:H2.
  { intros [= <-]. apply (Hm mcp.match_embed); [|exact H2].
    intros t w. unfold mcp.match_embed.
    destruct (String.prefix _ t); eauto; discriminate. }
  intros H3. apply (Hm mcp.match_short); [|exact H3].
  intros t w. unfold mcp.match_short.
  destruct (String.prefix _ t); eauto; discriminate.
Qed.

Lemma validate_video_id_accepts (w : string) :
  String.length w = 11%nat -> all_chars mcp.isid w = true ->
  mcp.validate_video_id w = Ok w.
Proof.
  intros Hlen Hall.
  destruct (take_id_complete w "" Hall) as [Ht Hd].
  rewrite append_empty, Hlen in Ht, Hd.
  unfold mcp.validate_video_id, mcp.match_video_id, Py.falsy.
  rewrite Ht, Hd.
  rewrite (bool_decide_eq_true_2 ("" = "")) by reflexivity.
  rewrite bool_decide_eq_false_2; [reflexivity|].
  intros ->. discriminate.
Qed.

(** X25. An identifier that the patterns of [get_transcript] extract from a
    URL has exactly eleven characters, all letters, digits, [_] or [-], and
    so the validator of [YouTubeVideo] always accepts it. *)
Theorem X25_extracted_id_is_valid (url video_id : string) :
  mcp.extract_video_id url = Some video_id ->
  String.length video_id = 11%nat /\
  all_chars mcp.isid video_id = true /\
  mcp.validate_video_id video_id = Ok video_id.
Proof.
  intros He. destruct (extract_video_id_spec _ _ He) as [Hlen Hall].
  auto using validate_video_id_accepts.
Qed.

Lemma X25_extracted_id_is_valid_witness :
  String.length "dQw4w9WgXcQ" = 11%nat /\
  all_chars mcp.isid "dQw4w9WgXcQ" = true /\
  mcp.validate_video_id "dQw4w9WgXcQ" = Ok "dQw4w9WgXcQ".
Proof.
  apply (X25_extracted_id_is_valid "https://youtu.be/dQw4w9WgXcQ?t=42").
  reflexivity.
Defined.

(** X26. The second and the third pattern never decide: a URL in which
    [embed/] or [youtu.be/] is followed by eleven characters of the class
    has a slash followed by them, which the first pattern finds. The
    identifier is always the one of the first pattern. *)
Theorem X26_first_pattern_decides (url : string) :
  mcp.extract_video_id url = mcp.re_search mcp.match_watch url.
Proof.
  unfold mcp.extract_video_id.
  destruct (mcp.re_search mcp.match_watch url) eqn:H1; [reflexivity|].
  pose proof (re_search_none _ _ H1) as Hnone.
  assert (forall t r w, t = "/" +:+ r -> mcp.take_id 11 r = Some w ->
                        mcp.match_watch t = Some w) as Hslash.
  { intros t r w -> Hw. unfold mcp.match_watch.
    change ("/" +:+ r) with (String "/" r).
    rewrite prefix_cons.
    destruct (ascii_dec "v" "/") as [Hx|_]; [discriminate Hx|].
    rewrite prefix_cons.
    destruct (ascii_dec "/" "/") as [_|Hx]; [|now destruct Hx].
    replace (String.prefix "" r) with true by (now destruct r). exact Hw. }
  destruct (mcp.re_search mcp.match_embed url) eqn:H2.
  { exfalso. apply re_search_some in H2 as [n Hn].
    unfold mcp.match_embed in Hn.
    destruct (String.prefix "embed/" (mcp.drop_string n url)) eqn:Hp;
      [|discriminate].
    apply prefix_true in Hp.
    specialize (Hnone (n + 5)%nat). rewrite drop_string_add in Hnone.
    rewrite (Hslash _ (mcp.drop_string 6 (mcp.drop_string n url)) s) in Hnone;
      [discriminate| |exact Hn].
    rewrite Hp at 1. reflexivity. }
  destruct (mcp.re_search mcp.match_short url) eqn:H3; [|reflexivity].
  exfalso. apply re_search_some in H3 as [n Hn].
  unfold mcp.match_short in Hn.
  destruct (String.prefix "youtu.be/" (mcp.drop_string n url)) eqn:Hp;
    [|discriminate].
  apply prefix_true in Hp.
  specialize (Hnone (n + 8)%nat). rewrite drop_string_add in Hnone.
  rewrite (Hslash _ (mcp.drop_string 9 (mcp.drop_string n url)) s) in Hnone;
    [discriminate| |exact Hn].
  rewrite Hp at 1. reflexivity.
Qed.

(** X27. The validator of [YouTubeVideo] accepts exactly the texts made of
    eleven characters of the class, and those followed by one line feed:
    the [$] of its pattern also matches before a final line feed. *)
Theorem X27_video_id_validator (v : string) :
  mcp.validate_video_id v = Ok v <->
  exists w,
    String.length w = 11%nat /\ all_chars mcp.isid w = true /\
    (v = w \/ v = w +:+ Py.nl).
Proof.
  unfold mcp.validate_video_id, mcp.match_video_id, Py.falsy. split.
  - destruct (mcp.take_id 11 v) as [w|] eqn:Hw.
    + destruct (take_id_spec _ _ _ Hw) as (Hlen & Hall & Hv).
      destruct (bool_decide (v = "")); [discriminate|].
      destruct (bool_decide (mcp.drop_string 11 v = "")) eqn:H1.
      * apply bool_decide_eq_true_1 in H1. intros _. exists w.
        rewrite H1, append_empty in Hv. auto.
      * destruct (bool_decide (mcp.drop_string 11 v = Py.nl)) eqn:H2;
          [|cbn [orb negb]; discriminate].
        apply bool_decide_eq_true_1 in H2. intros _. exists w.
        rewrite H2 in Hv. auto.
    + rewrite orb_true_r. discriminate.
  - intros (w & Hlen & Hall & Hv).
    assert (v <> "") as Hne.
    { destruct Hv as [->| ->]; destruct w; discriminate. }
    rewrite (bool_decide_eq_false_2 (v = "")) by exact Hne.
    destruct Hv as [->| ->].
    + destruct (take_id_complete w "" Hall) as [Ht Hd].
      rewrite append_empty, Hlen in Ht, Hd. rewrite Ht, Hd.
      rewrite (bool_decide_eq_true_2 ("" = "")) by reflexivity. reflexivity.
    + destruct (take_id_complete w Py.nl Hall) as [Ht Hd].
      rewrite Hlen in Ht, Hd. rewrite Ht, Hd.
      rewrite (bool_decide_eq_true_2 (Py.nl = Py.nl)) by reflexivity.
      rewrite orb_true_r. reflexivity.
Qed.

(** X28. The tool [get_transcript] never raises. For a URL in which no
    pattern matches it answers with the fixed error and the URL, under the
    identifier [unknown]; for a URL with an identifier the validator is
    passed, and a failure of the transcript service is reported with its
    own text. *)
Theorem X28_transcript_tool_reports_failures
    (get_api_transcript : string -> outcome (list (Py.dict string)))
    (url : string) :
  exists out,
    mcp.get_transcript get_api_transcript url = Ok out /\
    match mcp.extract_video_id url with
    | None =>
        out = "Error fetching transcript: Invalid YouTube URL" +:+ Py.nl
              +:+ "URL: " +:+ url
    | Some video_id =>
        forall e,
          get_api_transcript video_id = Raise e ->
          out = "Error fetching transcript: " +:+ str_exn e +:+ Py.nl
                +:+ "URL: " +:+ url
    end.
Proof.
  unfold mcp.get_transcript, mcp.get_transcript_try.
  destruct (mcp.extract_video_id url) as [video_id|] eqn:He;
    [|eexists; split; reflexivity].
  destruct (extract_video_id_spec _ _ He) as [Hlen Hall].
  pose proof (validate_video_id_accepts _ Hlen Hall) as Hv.
  assert (Py.falsy video_id = false) as Hf.
  { unfold Py.falsy. apply bool_decide_eq_false_2. intros ->. discriminate. }
  rewrite Hf, Hv.
  destruct (get_api_transcript video_id) as [items|e].
  - destruct (map_outcome _ items) as [texts|e].
    + unfold mcp.format_TranscriptResponse. simpl.
      destruct (Py.falsy (Py.join " " texts)); eexists;
        (split; [reflexivity|discriminate]).
    + eexists. split; [reflexivity|discriminate].
  - eexists. split; [reflexivity|]. intros e' [= <-]. reflexivity.
Qed.

(** ** The suggestion after an unknown column *)

Lemma take_word_spec (s : string) : all_chars mcp.isword (mcp.take_word s) = true.
Proof.
  induction s as [|c s IH]; simpl; [reflexivity|].
  destruct (mcp.isword c) eqn:Hc; simpl; [now rewrite Hc|reflexivity].
Qed.

Lemma search_from_table_spec (s w : string) :
  mcp.search_from_table s = Some w ->
  w <> "" /\ all_chars mcp.isword w = true.
Proof.
  assert (forall t, mcp.match_from_here t = Some w ->
                    w <> "" /\ all_chars mcp.isword w = true) as Hhere.
  { intros t. unfold mcp.match_from_here.
    destruct (String.prefix "FROM" (Py.upper t)); [|discriminate].
    destruct (bool_decide _); [discriminate|].
    pose proof (take_word_spec (Py.lstrip (mcp.drop_string 4 t))) as Hall.
    destruct (mcp.take_word _) as [|c r]; [discriminate|].
    intros [= <-]. split; [discriminate|exact Hall]. }
  induction s as [|c s IH]; simpl.
  - discriminate.
  - destruct (mcp.match_from_here (String c s)) eqn:Hm.
    + intros [= <-]. eauto.
    + exact IH.
Qed.

(** X29. When a statement passes the check and the engine refuses it with a
    message about a column that does not exist, the answer is still the
    failure with that message, followed by the advice to read the schema of
    the table: the first word after [FROM] in the statement, a non-empty run
    of letters, digits and underscores. The statement is sent once. *)
Theorem X29_unknown_column_suggestion (db_manager : PostgreSQLManager)
    (sql_query : string) (log : list Call) (e : exn) (table_name : string) :
  passes_gate sql_query = true ->
  execute (engine db_manager) sql_query = Raise e ->
  Py.contains "column"
    (Py.lower (match e with
               | SQLAlchemyError _ => "SQL Error: "
               | _ => "Unexpected error: "
               end +:+ str_exn e)) = true ->
  Py.contains "does not exist"
    (Py.lower (match e with
               | SQLAlchemyError _ => "SQL Error: "
               | _ => "Unexpected error: "
               end +:+ str_exn e)) = true ->
  mcp.search_from_table sql_query = Some table_name ->
  mcp.execute_select_query db_manager sql_query log
  = (Ok ("Query failed: "
         +:+ ((match e with
               | SQLAlchemyError _ => "SQL Error: "
               | _ => "Unexpected error: "
               end +:+ str_exn e)
              +:+ (Py.nl +:+ Py.nl
                   +:+ "SUGGESTION: The column name might be incorrect. Please use get_table_schema(table_name='"
                   +:+ table_name
                   +:+ "') to check the exact column names available in the table."))
         +:+ Py.nl +:+ "Query: " +:+ sql_query),
     (log ++ [CExecute sql_query])%list)
  /\ table_name <> "" /\ all_chars mcp.isword table_name = true.
Proof.
  intros Hgate He Hcol Hexist Hfrom.
  split; [|exact (search_from_table_spec _ _ Hfrom)].
  unfold passes_gate in Hgate.
  unfold mcp.execute_select_query, try_except. rewrite Hgate. simpl.
  unfold bind. rewrite execute_query_run, He. simpl.
  rewrite Hcol, Hexist, Hfrom. reflexivity.
Qed.

Lemma X29_unknown_column_suggestion_witness :
  exists out,
    mcp.execute_select_query
      {| config := Fixtures.a_config;
         engine :=
           {| inspect := Ok tt; get_table_names := Ok ["orders"];
              get_columns t := Ok [Fixtures.column "id" "INTEGER" false];
              get_pk_constraint t := Ok (Some ["id"]);
              get_foreign_keys t := Ok []; get_indexes t := Ok [];
              execute q := Raise (SQLAlchemyError "column total does not exist");
              elapsed q := Fixtures.an_elapsed |} |}
      "select total from orders" []
    = (Ok out, [CExecute "select total from orders"]) /\
    Py.contains "get_table_schema(table_name='orders')" out = true.
Proof.
  eexists. split.
  - apply (X29_unknown_column_suggestion _ "select total from orders" []
             (SQLAlchemyError "column total does not exist") "orders");
      reflexivity.
  - vm_compute. reflexivity.
Defined.
